(** * verify_setup.py: the PRC setup verification script

    A shallow embedding of [src/verify_setup.py].  The script probes the
    machine it runs on (module imports, child processes, one environment
    variable, the interpreter version) and prints a report.  Everything the
    script reads from the machine is gathered in a record [World]; everything
    it does to the machine (lines printed, child processes spawned, modules
    imported) is logged as a list of [event]s.  Python exceptions are explicit:
    a computation either returns a value or raises an exception class. *)

From Stdlib Require Import String Ascii List ZArith Arith Bool Lia DecimalString.
Import ListNotations.
Open Scope string_scope.

(** ** Python runtime: exceptions *)

Module Py.

(** The exception classes that matter for the three [try]/[except] blocks of
    the script, with the part of the built-in class hierarchy above them.
    [SystemExit] carries the exit status that its code stands for (0 for
    [None], the integer itself, 1 for any other object). *)
Inductive exn : Type :=
  | BaseException
  | SystemExit (status : Z)
  | KeyboardInterrupt
  | Exception
  | OSError
  | FileNotFoundError
  | PermissionError
  | SubprocessError
  | TimeoutExpired
  | ImportError
  | ModuleNotFoundError
  | ValueError
  | TypeError
  | SyntaxError
  | AttributeError.

Definition exn_eqb (a b : exn) : bool :=
  match a, b with
  | BaseException, BaseException
  | SystemExit _, SystemExit _
  | KeyboardInterrupt, KeyboardInterrupt
  | Exception, Exception
  | OSError, OSError
  | FileNotFoundError, FileNotFoundError
  | PermissionError, PermissionError
  | SubprocessError, SubprocessError
  | TimeoutExpired, TimeoutExpired
  | ImportError, ImportError
  | ModuleNotFoundError, ModuleNotFoundError
  | ValueError, ValueError
  | TypeError, TypeError
  | SyntaxError, SyntaxError
  | AttributeError, AttributeError => true
  | _, _ => false
  end.

(** Method resolution order: the class itself, then its bases. *)
Definition mro (e : exn) : list exn :=
  match e with
  | BaseException => [BaseException]
  | SystemExit status => [SystemExit status; BaseException]
  | KeyboardInterrupt => [KeyboardInterrupt; BaseException]
  | Exception => [Exception; BaseException]
  | OSError => [OSError; Exception; BaseException]
  | FileNotFoundError => [FileNotFoundError; OSError; Exception; BaseException]
  | PermissionError => [PermissionError; OSError; Exception; BaseException]
  | SubprocessError => [SubprocessError; Exception; BaseException]
  | TimeoutExpired => [TimeoutExpired; SubprocessError; Exception; BaseException]
  | ImportError => [ImportError; Exception; BaseException]
  | ModuleNotFoundError => [ModuleNotFoundError; ImportError; Exception; BaseException]
  | ValueError => [ValueError; Exception; BaseException]
  | TypeError => [TypeError; Exception; BaseException]
  | SyntaxError => [SyntaxError; Exception; BaseException]
  | AttributeError => [AttributeError; Exception; BaseException]
  end.

Definition issubclass (e c : exn) : bool := existsb (exn_eqb c) (mro e).

(** [except (c1, ..., cn)] handles [e] when [e] is an instance of some [ci]. *)
Definition handles (classes : list exn) (e : exn) : bool :=
  existsb (issubclass e) classes.

(** The outcome of evaluating an expression or running a statement. *)
Inductive result (A : Type) : Type :=
  | Return (a : A)
  | Raise (e : exn).
Arguments Return {A} a.
Arguments Raise {A} e.

(** ** Python runtime: strings and tuples *)

Definition nl : string := String (ascii_of_nat 10) EmptyString.

(** [s * n] *)
Fixpoint str_mul (s : string) (n : nat) : string :=
  match n with
  | O => EmptyString
  | S n' => s ++ str_mul s n'
  end.

(** [sub in s] *)
Fixpoint str_in (sub s : string) : bool :=
  prefix sub s ||
  match s with
  | EmptyString => false
  | String _ s' => str_in sub s'
  end.

(** [str(n)] / [f"{n}"] for a non-negative [int]. *)
Definition str_of_nat (n : nat) : string := NilZero.string_of_uint (Nat.to_uint n).

(** Truth value of the result of [os.getenv]: [None] and [""] are false. *)
Definition truthy (v : option string) : bool :=
  match v with
  | None => false
  | Some s => negb (s =? "")
  end.

(** Tuple items: [sys.version_info] holds integers and one string. *)
Inductive pyval : Type :=
  | PInt (n : Z)
  | PStr (s : string).

(** [a < b] on tuples: the first pair of items that differ decides, with
    [<] on that pair (a [TypeError] between an [int] and a [str]); when one
    tuple is a prefix of the other the shorter one is the smaller. *)
Fixpoint tuple_lt (a b : list pyval) : result bool :=
  match a, b with
  | [], [] => Return false
  | [], _ :: _ => Return true
  | _ :: _, [] => Return false
  | PInt m :: a', PInt n :: b' =>
      if (m =? n)%Z then tuple_lt a' b' else Return (m <? n)%Z
  | PStr s :: a', PStr t :: b' =>
      if (s =? t)%string then tuple_lt a' b' else Return (String.ltb s t)
  | _ :: _, _ :: _ => Raise TypeError
  end.

End Py.
Import Py.

(** ** The machine the script runs on *)

(** [sys.version_info] *)
Record version_info : Type := {
  major : nat;
  minor : nat;
  micro : nat;
  releaselevel : string;
  serial : nat
}.

Definition as_tuple (v : version_info) : list pyval :=
  [PInt (Z.of_nat (major v)); PInt (Z.of_nat (minor v)); PInt (Z.of_nat (micro v));
   PStr (releaselevel v); PInt (Z.of_nat (serial v))].

(** A child process that could be started: how long it takes until the call
    that waits for it has it finished, that is until the child has exited and
    the pipes that capture its output are at end-of-file (in the time units
    of the [timeout] argument; [None] when that never happens, as for a child
    that hangs or leaves a holder of its output behind), its exit status and
    what it writes. *)
Record process : Type := {
  duration : option nat;
  returncode : Z;
  child_stdout : string;
  child_stderr : string
}.

(** What happens when an argument vector is executed: the operating system
    refuses ([FileNotFoundError] when no such executable is on the path,
    [PermissionError] when the file is not executable, ...) or a process
    starts. *)
Inductive spawn_outcome : Type :=
  | SpawnRaises (e : exn)
  | Started (p : process).

(** What happens when a module is imported. *)
Inductive load_outcome : Type :=
  | Loaded
  | LoadRaises (e : exn).

Record World : Type := {
  sys_version : string;
  sys_version_info : version_info;
  spawn : list string -> spawn_outcome;
  load : string -> load_outcome;
  environ : string -> option string
}.

(** ** Effects *)

Inductive event : Type :=
  | Printed (s : string)
      (** [print(s)]: [s] and a newline on standard output *)
  | Spawned (args : list string) (capture_output : bool) (timeout : nat)
      (** a child process is spawned by [subprocess.run] *)
  | Inherited (out err : string)
      (** a child wrote to the script's own standard streams *)
  | Imported (module : string).
      (** [__import__(module)] *)

(** A statement reads the world, logs events and returns or raises.  The
    events logged before an exception are kept: what was printed stays
    printed. *)
Definition M (A : Type) : Type := World -> list event * result A.

Definition ret {A} (a : A) : M A := fun _ => ([], Return a).

Definition bind {A B} (m : M A) (k : A -> M B) : M B :=
  fun w =>
    match m w with
    | (t1, Return a) => let (t2, r) := k a w in ((t1 ++ t2)%list, r)
    | (t1, Raise e) => (t1, Raise e)
    end.

Declare Scope py_scope.
Delimit Scope py_scope with py.
Notation "x <- m ;; k" := (bind m (fun x => k))
  (at level 100, m at next level, right associativity) : py_scope.
Notation "m ;; k" := (bind m (fun _ => k))
  (at level 100, right associativity) : py_scope.
Open Scope py_scope.

Definition lift {A} (r : result A) : M A := fun _ => ([], r).

Definition ask {A} (f : World -> A) : M A := fun w => ([], Return (f w)).

Definition print (s : string) : M unit := fun _ => ([Printed s], Return tt).

(** [try: body except classes: handler] *)
Definition try_except {A} (body : M A) (classes : list exn) (handler : M A) : M A :=
  fun w =>
    match body w with
    | (t1, Return a) => (t1, Return a)
    | (t1, Raise e) =>
        if handles classes e
        then let (t2, r) := handler w in ((t1 ++ t2)%list, r)
        else (t1, Raise e)
    end.

(** [for x in l: body x] *)
Fixpoint for_each {A} (l : list A) (body : A -> M unit) : M unit :=
  match l with
  | [] => ret tt
  | x :: l' => body x ;; for_each l' body
  end.

(** [for x in l: body x], the body updating one local variable. *)
Fixpoint for_each_with {A S} (l : list A) (s : S) (body : A -> S -> M S) : M S :=
  match l with
  | [] => ret s
  | x :: l' => s' <- body x s ;; for_each_with l' s' body
  end.

(** [subprocess.CompletedProcess] *)
Record CompletedProcess : Type := {
  cp_args : list string;
  cp_returncode : Z;
  cp_stdout : option string;
  cp_stderr : option string
}.

(** The child ends by itself before the wait is over. *)
Definition ends_within (timeout : nat) (p : process) : bool :=
  match duration p with
  | Some d => (d <=? timeout)%nat
  | None => false
  end.

(** [subprocess.run(args, capture_output=..., timeout=...)]: spawn, wait at
    most [timeout] for the child to exit and its output to end; a call not
    finished then kills the child and raises [TimeoutExpired].  Captured
    output comes back in the result, output that is not captured goes to the
    script's own streams.  The command is looked up on the search path and
    the child inherits the environment of the script: both are part of what
    the machine answers in [spawn]. *)
Definition subprocess_run (args : list string) (capture_output : bool) (timeout : nat)
  : M CompletedProcess :=
  fun w =>
    match spawn w args with
    | SpawnRaises e => ([Spawned args capture_output timeout], Raise e)
    | Started p =>
        (Spawned args capture_output timeout ::
           (if capture_output then [] else [Inherited (child_stdout p) (child_stderr p)]),
         if ends_within timeout p
         then Return {| cp_args := args;
                        cp_returncode := returncode p;
                        cp_stdout := if capture_output then Some (child_stdout p) else None;
                        cp_stderr := if capture_output then Some (child_stderr p) else None |}
         else Raise TimeoutExpired)
    end.

(** [__import__(module)] *)
Definition builtin_import (module : string) : M unit :=
  fun w =>
    ([Imported module],
     match load w module with
     | Loaded => Return tt
     | LoadRaises e => Raise e
     end).

(** [os.getenv(key)] *)
Definition os_getenv (key : string) : M (option string) := ask (fun w => environ w key).

(** ** The script *)

(** [check_command], lines 13-23. *)
Definition check_command_args (cmd : string) : list string :=
  if negb (cmd =? "checkov") then [cmd; "--version"] else [cmd; "-v"].

Definition check_command (cmd name : string) : M bool :=
  try_except
    (result <- subprocess_run (check_command_args cmd) true 10 ;;
     ret (cp_returncode result =? 0)%Z)
    [FileNotFoundError; TimeoutExpired]
    (ret false).

(** [check_python_module], lines 25-31. *)
Definition check_python_module (module : string) : M bool :=
  try_except
    (builtin_import module ;;
     ret true)
    [ImportError]
    (ret false).

Definition required_packages : list (string * string) :=
  [("click", "click");
   ("rich", "rich")].

Definition optional_packages : list (string * string * string) :=
  [("reportlab", "reportlab", "PDF report generation");
   ("openai", "openai", "AI-powered insights")].

Definition external_tools : list (string * string * string * string) :=
  [("trivy", "Trivy", "Vulnerability scanner",
    "https://trivy.dev/latest/getting-started/installation/");
   ("checkov", "Checkov", "IaC scanner", "pip install checkov");
   ("gitleaks", "Gitleaks", "Secret detection",
    "https://github.com/gitleaks/gitleaks#installing")].

(** [main], lines 34-36. *)
Definition banner : M unit :=
  print (str_mul "=" 60) ;;
  print "PRC Setup Verification" ;;
  print (str_mul "=" 60).

(** [main], lines 38-43: check Python version. *)
Definition python_version_check : M unit :=
  version <- ask sys_version ;;
  print (nl ++ "Python Version: " ++ version) ;;
  info <- ask sys_version_info ;;
  too_old <- lift (tuple_lt (as_tuple info) [PInt 3; PInt 9]) ;;
  if too_old : bool
  then print "  [WARNING] Python 3.9+ is recommended"
  else print "  [OK] Python version is compatible".

(** [main], lines 45-56: check required Python packages. *)
Definition required_packages_check : M unit :=
  print (nl ++ "--- Required Python Packages ---") ;;
  for_each required_packages (fun '(package_name, import_name) =>
    installed <- check_python_module import_name ;;
    if installed : bool
    then print ("  [OK] " ++ package_name ++ " installed")
    else print ("  [MISSING] " ++ package_name ++ " - install with: pip install "
                ++ package_name)).

(** [main], lines 58-70: check optional Python packages. *)
Definition optional_packages_check : M unit :=
  print (nl ++ "--- Optional Python Packages ---") ;;
  for_each optional_packages (fun '(package_name, import_name, description) =>
    installed <- check_python_module import_name ;;
    if installed : bool
    then print ("  [OK] " ++ package_name ++ " - " ++ description)
    else (print ("  [OPTIONAL] " ++ package_name ++ " - " ++ description) ;;
          print ("             Install with: pip install " ++ package_name))).

(** [main], lines 72-87: check external scanning tools; the value is the
    local variable [tools_available] after the loop. *)
Definition external_tools_body (tool : string * string * string * string)
  (tools_available : nat) : M nat :=
  let '(cmd, name, description, install_info) := tool in
  found <- check_command cmd name ;;
  if found : bool
  then (print ("  [OK] " ++ name ++ " - " ++ description) ;;
        ret (tools_available + 1)%nat)
  else (print ("  [NOT INSTALLED] " ++ name ++ " - " ++ description) ;;
        print ("                  Install: " ++ install_info) ;;
        ret tools_available).

Definition external_tools_check : M nat :=
  print (nl ++ "--- External Scanning Tools ---") ;;
  for_each_with external_tools 0 external_tools_body.

(** [main], lines 89-92: built-in scanner. *)
Definition builtin_scanner : M unit :=
  print (nl ++ "--- Built-in Scanner ---") ;;
  print "  [ALWAYS AVAILABLE] Built-in Secret Scanner" ;;
  print "                     Detects hardcoded passwords, API keys, K8s secrets".

(** [main], lines 94-104: summary. *)
Definition summary (tools_available : nat) : M unit :=
  print (nl ++ str_mul "=" 60) ;;
  print "Summary" ;;
  print (str_mul "=" 60) ;;
  if (tools_available =? 0)%nat
  then (print (nl ++ "[INFO] No external tools installed.") ;;
        print "       PRC will use the built-in secret scanner only." ;;
        print "       For comprehensive scanning, install Trivy, Checkov, or Gitleaks.")
  else print (nl ++ "[OK] " ++ str_of_nat tools_available
              ++ " external tool(s) available + built-in scanner").

(** [main], lines 106-114: check environment variables.  The [import os] of
    line 108 finds [os] loaded already (by [import subprocess], line 9) and
    binds a local name: it prints nothing and cannot fail, and no event
    stands for it. *)
Definition environment_check : M unit :=
  print (nl ++ "--- Environment Variables ---") ;;
  openai_key <- os_getenv "OPENAI_API_KEY" ;;
  if truthy openai_key
  then print "  [OK] OPENAI_API_KEY is set (AI insights enabled)"
  else (print "  [NOT SET] OPENAI_API_KEY - AI insights will use fallback mode" ;;
        print "            Set with: export OPENAI_API_KEY=your-key").

(** [main], lines 116-119. *)
Definition usage : M unit :=
  print (nl ++ str_mul "=" 60) ;;
  print "To run a scan:" ;;
  print "  python -m src.cli.main scan /path/to/project" ;;
  print (str_mul "=" 60).

(** [main], lines 33-119. *)
Definition main : M unit :=
  banner ;;
  python_version_check ;;
  required_packages_check ;;
  optional_packages_check ;;
  tools_available <- external_tools_check ;;
  builtin_scanner ;;
  summary tools_available ;;
  environment_check ;;
  usage.




(** Standard output of a run: one entry per [print] call, in order. *)
Definition stdout (t : list event) : list string :=
  flat_map (fun ev => match ev with
                      | Printed s => [s]
                      | Inherited out _ => [out]
                      | _ => []
                      end) t.

(** ** Sample machines *)

Definition py_3_8 : version_info :=
  {| major := 3; minor := 8; micro := 10; releaselevel := "final"; serial := 0 |}.

Definition py_3_11 : version_info :=
  {| major := 3; minor := 11; micro := 4; releaselevel := "final"; serial := 0 |}.

(** An old interpreter, no package, no tool on the path, no key. *)
Definition bare_machine : World :=
  {| sys_version := "3.8.10 (default, Nov 22 2023, 10:22:35)";
     sys_version_info := py_3_8;
     spawn := fun _ => SpawnRaises FileNotFoundError;
     load := fun _ => LoadRaises ModuleNotFoundError;
     environ := fun _ => None |}.

Definition quick_success : process :=
  {| duration := Some 1; returncode := 0%Z;
     child_stdout := "Version: 0.50.1"; child_stderr := "" |}.

(** A recent interpreter, every package, every tool, a key. *)
Definition full_machine : World :=
  {| sys_version := "3.11.4 (main, Jun 7 2023, 00:00:00)";
     sys_version_info := py_3_11;
     spawn := fun _ => Started quick_success;
     load := fun _ => Loaded;
     environ := fun key => if key =? "OPENAI_API_KEY" then Some "sk-test" else None |}.

(** [bare_machine] with the key exported as the empty string. *)
Definition empty_key_machine : World :=
  {| sys_version := sys_version bare_machine;
     sys_version_info := sys_version_info bare_machine;
     spawn := spawn bare_machine;
     load := load bare_machine;
     environ := fun key => if key =? "OPENAI_API_KEY" then Some "" else None |}.

(** [bare_machine] with a file named [trivy] on the path that is not
    executable: [execvp] fails with [EACCES]. *)
Definition unexecutable_trivy_machine : World :=
  {| sys_version := sys_version bare_machine;
     sys_version_info := sys_version_info bare_machine;
     spawn := fun args =>
       match args with
       | cmd :: _ => if cmd =? "trivy" then SpawnRaises PermissionError
                     else SpawnRaises FileNotFoundError
       | [] => SpawnRaises ValueError
       end;
     load := load bare_machine;
     environ := environ bare_machine |}.

(** [bare_machine] with an [openai] package whose source the old interpreter
    cannot parse. *)
Definition unparsable_openai_machine : World :=
  {| sys_version := sys_version bare_machine;
     sys_version_info := sys_version_info bare_machine;
     spawn := spawn bare_machine;
     load := fun module =>
       if module =? "openai" then LoadRaises SyntaxError
       else LoadRaises ModuleNotFoundError;
     environ := environ bare_machine |}.



Definition quick_success_quiet : process :=
  {| duration := Some 1; returncode := 0%Z; child_stdout := ""; child_stderr := "warning" |}.


Definition quiet_machine : World :=
  {| sys_version := sys_version full_machine;
     sys_version_info := sys_version_info full_machine;
     spawn := fun _ => Started quick_success_quiet;
     load := load full_machine;
     environ := environ full_machine |}.

(** ** Cutting a run in two

    Lines 34-87 of [main] do all the probing; their value is the local
    variable [tools_available] at the end of the tool loop.  Lines 89-119
    only print, from that counter and the environment. *)

Definition main_probes : M nat :=
  banner ;;
  python_version_check ;;
  required_packages_check ;;
  optional_packages_check ;;
  external_tools_check.

Definition main_report (tools_available : nat) : M unit :=
  builtin_scanner ;;
  summary tools_available ;;
  environment_check ;;
  usage.

(** Whether a tool of the table is counted: [check_command] returned [True]. *)
Definition detected (w : World) (tool : string * string * string * string) : bool :=
  let '(cmd, name, _, _) := tool in
  match snd (check_command cmd name w) with
  | Return true => true
  | _ => false
  end.

(** The exceptions of a probe stay inside it: the import fails with an
    [ImportError] or not at all, the child process cannot be found, times
    out, or runs. *)
Definition import_contained (w : World) (module : string) : bool :=
  match load w module with
  | Loaded => true
  | LoadRaises e => handles [ImportError] e
  end.

Definition spawn_contained (w : World) (cmd : string) : bool :=
  match spawn w (check_command_args cmd) with
  | Started _ => true
  | SpawnRaises e => handles [FileNotFoundError; TimeoutExpired] e
  end.

Definition probes_contained (w : World) : bool :=
  forallb (fun '(_, import_name) => import_contained w import_name) required_packages
  && forallb (fun '(_, import_name, _) => import_contained w import_name) optional_packages
  && forallb (fun '(cmd, _, _, _) => spawn_contained w cmd) external_tools.

(** The machine on which [os.getenv key] answers [value] and everything
    else, what imports and spawns do included, is as on [w]. *)
Definition with_environ (w : World) (key : string) (value : option string) : World :=
  {| sys_version := sys_version w;
     sys_version_info := sys_version_info w;
     spawn := spawn w;
     load := load w;
     environ := fun k => if k =? key then value else environ w k |}.

(** The interpreter is older than 3.9. *)
Definition older_than_3_9 (v : version_info) : Prop :=
  major v < 3 \/ (major v = 3 /\ minor v < 9).

(** Two spawn outcomes that differ at most in what the child wrote. *)
Definition same_exit (a b : spawn_outcome) : Prop :=
  match a, b with
  | SpawnRaises e1, SpawnRaises e2 => e1 = e2
  | Started p1, Started p2 =>
      duration p1 = duration p2 /\ returncode p1 = returncode p2
  | _, _ => False
  end.

(** The fixed lines of the report. *)
Definition bar : string := str_mul "=" 60.

Definition builtin_lines : list string :=
  [nl ++ "--- Built-in Scanner ---";
   "  [ALWAYS AVAILABLE] Built-in Secret Scanner";
   "                     Detects hardcoded passwords, API keys, K8s secrets"].

Definition summary_header : list string := [nl ++ bar; "Summary"; bar].

Definition summary_body (tools_available : nat) : list string :=
  if (tools_available =? 0)%nat
  then [nl ++ "[INFO] No external tools installed.";
        "       PRC will use the built-in secret scanner only.";
        "       For comprehensive scanning, install Trivy, Checkov, or Gitleaks."]
  else [nl ++ "[OK] " ++ str_of_nat tools_available
        ++ " external tool(s) available + built-in scanner"].

Definition environment_header : string := nl ++ "--- Environment Variables ---".

Definition environment_body (w : World) : list string :=
  if truthy (environ w "OPENAI_API_KEY")
  then ["  [OK] OPENAI_API_KEY is set (AI insights enabled)"]
  else ["  [NOT SET] OPENAI_API_KEY - AI insights will use fallback mode";
        "            Set with: export OPENAI_API_KEY=your-key"].

Definition usage_lines : list string :=
  [nl ++ bar; "To run a scan:"; "  python -m src.cli.main scan /path/to/project"; bar].

(** A statement comes to its end: it returns rather than raises. *)
Definition returns {A} (m : M A) (w : World) : Prop :=
  exists a, snd (m w) = Return a.

(** ** Reading a run

    Helpers to state what a run did: the child processes it had, the
    children of the tool table, the exception that a probe lets through, and
    the status lines of a section. *)

(** What a trace says about child processes: the spawns, and what children
    wrote to the streams of the script. *)
Definition children (t : list event) : list event :=
  filter (fun ev => match ev with
                    | Spawned _ _ _ | Inherited _ _ => true
                    | _ => false
                    end) t.


(** [L] lists the children of [m] when it comes to its end; when it stops
    earlier it had a first part of them. *)
Definition does_within {A} (m : M A) (L : list event) (w : World) : Prop :=
  exists rest, L = (children (fst (m w)) ++ rest)%list /\ (returns m w -> rest = []).

(** The exception that leaves a probe, if one does. *)
Definition uncaught_import (w : World) (module : string) : option exn :=
  match load w module with
  | Loaded => None
  | LoadRaises e => if handles [ImportError] e then None else Some e
  end.

Definition uncaught_spawn (w : World) (cmd : string) : option exn :=
  match spawn w (check_command_args cmd) with
  | Started _ => None
  | SpawnRaises e =>
      if handles [FileNotFoundError; TimeoutExpired] e then None else Some e
  end.

Fixpoint first_some {A} (f : A -> option exn) (l : list A) : option exn :=
  match l with
  | [] => None
  | x :: l' =>
      match f x with
      | Some e => Some e
      | None => first_some f l'
      end
  end.

(** The first exception that leaves a probe, in the order of [main]. *)
Definition first_uncaught (w : World) : option exn :=
  match first_some (fun '(_, import_name) => uncaught_import w import_name)
          required_packages with
  | Some e => Some e
  | None =>
      match first_some (fun '(_, import_name, _) => uncaught_import w import_name)
              optional_packages with
      | Some e => Some e
      | None => first_some (fun '(cmd, _, _, _) => uncaught_spawn w cmd) external_tools
      end
  end.

(** How many lines start with a tag. *)
Definition count_prefixed (tag : string) (lines : list string) : nat :=
  length (filter (prefix tag) lines).

(** Whether the import of a package of a table succeeds. *)
Definition loads (w : World) (module : string) : bool :=
  match load w module with
  | Loaded => true
  | LoadRaises _ => false
  end.

(** [full_machine] with another key and another variable. *)
Definition other_key_machine : World :=
  {| sys_version := sys_version full_machine;
     sys_version_info := sys_version_info full_machine;
     spawn := spawn full_machine;
     load := load full_machine;
     environ := fun key =>
       if key =? "OPENAI_API_KEY" then Some "sk-other"
       else if key =? "EDITOR" then Some "vi" else None |}.

(** A tool that is there and answers its version flag with an error. *)
Definition failing : process :=
  {| duration := Some 2; returncode := 2%Z;
     child_stdout := ""; child_stderr := "unknown flag" |}.

Definition failing_tool_machine : World :=
  {| sys_version := sys_version full_machine;
     sys_version_info := sys_version_info full_machine;
     spawn := fun _ => Started failing;
     load := load full_machine;
     environ := environ full_machine |}.

(** [full_machine] with only [checkov] installed and no [rich]. *)
Definition checkov_only_machine : World :=
  {| sys_version := sys_version full_machine;
     sys_version_info := sys_version_info full_machine;
     spawn := fun args =>
       match args with
       | cmd :: _ => if cmd =? "checkov" then Started quick_success
                     else SpawnRaises FileNotFoundError
       | [] => SpawnRaises ValueError
       end;
     load := fun module =>
       if module =? "rich" then LoadRaises ModuleNotFoundError else Loaded;
     environ := environ full_machine |}.

(** ** Exceptions and strings *)

Lemma handles_ImportError (e : exn) :
  handles [ImportError] e = true <-> e = ImportError \/ e = ModuleNotFoundError.
Proof.
  split.
  - destruct e; cbn; intros H; try discriminate H; auto.
  - intros [-> | ->]; reflexivity.
Qed.

Lemma handles_not_found_or_timeout (e : exn) :
  handles [FileNotFoundError; TimeoutExpired] e = true
  <-> e = FileNotFoundError \/ e = TimeoutExpired.
Proof.
  split.
  - destruct e; cbn; intros H; try discriminate H; auto.
  - intros [-> | ->]; reflexivity.
Qed.

Lemma append_assoc_str (a b c : string) : a ++ b ++ c = (a ++ b) ++ c.
Proof. induction a as [|x a IH]; cbn; [|rewrite IH]; reflexivity. Qed.

Lemma prefix_append (a b : string) : prefix a (a ++ b) = true.
Proof.
  induction a as [|c a IH]; cbn.
  - destruct b; reflexivity.
  - destruct (ascii_dec c c) as [_|ne]; [exact IH | contradiction].
Qed.

Lemma str_in_append (sub a b : string) : str_in sub (a ++ sub ++ b) = true.
Proof.
  induction a as [|c a IH]; cbn [append].
  - destruct (sub ++ b) eqn:E; cbn [str_in]; rewrite <- E, prefix_append; reflexivity.
  - cbn [str_in]. rewrite IH. apply orb_true_r.
Qed.

Lemma prefix_exists (a s : string) : prefix a s = true -> exists b, s = a ++ b.
Proof.
  revert s. induction a as [|c a IH]; intros s H.
  - exists s. reflexivity.
  - destruct s as [|d s]; cbn in H; [discriminate H|].
    destruct (ascii_dec c d) as [->|]; [|discriminate H].
    destruct (IH s H) as [b ->]. exists b. reflexivity.
Qed.

Lemma str_in_exists (sub s : string) :
  str_in sub s = true -> exists a b, s = a ++ sub ++ b.
Proof.
  induction s as [|c s IH]; cbn [str_in]; intros H.
  - rewrite orb_false_r in H. destruct (prefix_exists _ _ H) as [b E].
    exists "", b. exact E.
  - apply orb_true_iff in H. destruct H as [H | H].
    + destruct (prefix_exists _ _ H) as [b E]. exists "", b. exact E.
    + destruct (IH H) as (a & b & ->). exists (String c a), b. reflexivity.
Qed.

(** ** Sequencing *)

Section Sequencing.
Context {A B : Type}.
Variables (m : M A) (k : A -> M B) (w : World).

Lemma bind_Return (t : list event) (a : A) :
  m w = (t, Return a) -> bind m k w = ((t ++ fst (k a w))%list, snd (k a w)).
Proof. unfold bind. intros ->. destruct (k a w). reflexivity. Qed.

Lemma bind_Return_inv (t : list event) (b : B) :
  bind m k w = (t, Return b) ->
  exists t1 a t2, m w = (t1, Return a) /\ k a w = (t2, Return b) /\ t = (t1 ++ t2)%list.
Proof.
  unfold bind. destruct (m w) as [t1 [a|e]]; [|discriminate].
  destruct (k a w) as [t2 r] eqn:E. intros [= <- ->].
  exists t1, a, t2. auto.
Qed.
End Sequencing.

Lemma bind_assoc {A B C} (m : M A) (k : A -> M B) (h : B -> M C) (w : World) :
  bind (bind m k) h w = bind m (fun a => bind (k a) h) w.
Proof.
  unfold bind. destruct (m w) as [t1 [a|e]]; [|reflexivity].
  destruct (k a w) as [t2 [b|e]]; [|reflexivity].
  destruct (h b w) as [t3 r]. rewrite app_assoc. reflexivity.
Qed.

Lemma bind_ext {A B} (m : M A) (k k' : A -> M B) (w : World) :
  (forall a, k a w = k' a w) -> bind m k w = bind m k' w.
Proof.
  intros H. unfold bind. destruct (m w) as [t1 [a|e]]; [|reflexivity].
  rewrite H. reflexivity.
Qed.

Lemma stdout_app (t1 t2 : list event) : stdout (t1 ++ t2) = (stdout t1 ++ stdout t2)%list.
Proof. unfold stdout. apply flat_map_app. Qed.

Lemma stdout_prints (l : list string) : stdout (map Printed l) = l.
Proof. induction l as [|s l IH]; cbn; [|rewrite <- IH at 2]; reflexivity. Qed.

(** ** The probes *)

(** [check_command] spawns exactly one child and maps its fate to a value. *)
Lemma check_command_run (cmd name : string) (w : World) :
  check_command cmd name w =
  ([Spawned (check_command_args cmd) true 10],
   match spawn w (check_command_args cmd) with
   | SpawnRaises e =>
       if handles [FileNotFoundError; TimeoutExpired] e then Return false else Raise e
   | Started p =>
       if ends_within 10 p then Return (returncode p =? 0)%Z else Return false
   end).
Proof.
  unfold check_command, try_except, bind, subprocess_run.
  destruct (spawn w (check_command_args cmd)) as [e|p].
  - destruct (handles _ e); reflexivity.
  - destruct (ends_within 10 p); reflexivity.
Qed.

(** [check_python_module] imports once and maps the outcome to a value. *)
Lemma check_python_module_run (module : string) (w : World) :
  check_python_module module w =
  ([Imported module],
   match load w module with
   | Loaded => Return true
   | LoadRaises e => if handles [ImportError] e then Return false else Raise e
   end).
Proof.
  unfold check_python_module, try_except, bind, builtin_import.
  destruct (load w module) as [|e]; [reflexivity|].
  destruct (handles _ e); reflexivity.
Qed.

Lemma check_command_returns (cmd name : string) (w : World) :
  (exists b, snd (check_command cmd name w) = Return b) <-> spawn_contained w cmd = true.
Proof.
  rewrite check_command_run. unfold spawn_contained. cbn [snd].
  destruct (spawn w (check_command_args cmd)) as [e|p].
  - destruct (handles _ e); split; intros H; try reflexivity; eauto.
    + destruct H as [b H]. discriminate H.
    + discriminate H.
  - split; [reflexivity|]. intros _.
    destruct (ends_within 10 p); eauto.
Qed.

Lemma check_python_module_returns (module : string) (w : World) :
  (exists b, snd (check_python_module module w) = Return b)
  <-> import_contained w module = true.
Proof.
  rewrite check_python_module_run. unfold import_contained. cbn [snd].
  destruct (load w module) as [|e]; [split; eauto|].
  destruct (handles _ e); split; intros H; try reflexivity; eauto.
  - destruct H as [b H]. discriminate H.
  - discriminate H.
Qed.

(** ** The interpreter version test *)

Lemma version_test (v : version_info) :
  tuple_lt (as_tuple v) [PInt 3; PInt 9] =
  Return ((major v <? 3)%nat || ((major v =? 3)%nat && (minor v <? 9)%nat)).
Proof.
  unfold as_tuple. cbn [tuple_lt].
  destruct (Z.eqb_spec (Z.of_nat (major v)) 3), (Z.eqb_spec (Z.of_nat (minor v)) 9),
    (Z.ltb_spec (Z.of_nat (major v)) 3), (Z.ltb_spec (Z.of_nat (minor v)) 9),
    (Nat.ltb_spec (major v) 3), (Nat.eqb_spec (major v) 3), (Nat.ltb_spec (minor v) 9);
    try reflexivity; lia.
Qed.

Lemma version_test_older (v : version_info) :
  tuple_lt (as_tuple v) [PInt 3; PInt 9] = Return true <-> older_than_3_9 v.
Proof.
  rewrite version_test. unfold older_than_3_9. split.
  - intros [= H]. apply orb_true_iff in H. destruct H as [H | H].
    + left. apply Nat.ltb_lt. exact H.
    + apply andb_true_iff in H. destruct H as [H1 H2].
      right. split; [apply Nat.eqb_eq | apply Nat.ltb_lt]; assumption.
  - intros [H | [H1 H2]]; f_equal; apply orb_true_iff.
    + left. apply Nat.ltb_lt. exact H.
    + right. apply andb_true_iff. split; [apply Nat.eqb_eq | apply Nat.ltb_lt]; assumption.
Qed.

Lemma version_test_total (v : version_info) :
  tuple_lt (as_tuple v) [PInt 3; PInt 9] = Return true
  \/ tuple_lt (as_tuple v) [PInt 3; PInt 9] = Return false.
Proof. rewrite version_test. destruct (_ || _); auto. Qed.

(** ** Statements that come to their end *)

Lemma returns_bind {A B} (m : M A) (k : A -> M B) (w : World) :
  returns (bind m k) w <-> exists a, snd (m w) = Return a /\ returns (k a) w.
Proof.
  unfold returns, bind.
  destruct (m w) as [t1 [a|e]]; cbn [snd].
  - destruct (k a w) as [t2 r] eqn:E. cbn [snd]. split.
    + intros [b ->]. exists a. rewrite E. split; [reflexivity | exists b; reflexivity].
    + intros (a' & [= <-] & b & H). rewrite E in H. exists b. exact H.
  - split; [intros [b H] | intros (a & H & _)]; discriminate H.
Qed.

Lemma returns_seq {B} (m : M unit) (k : M B) (w : World) :
  returns (m ;; k) w <-> returns m w /\ returns k w.
Proof.
  rewrite returns_bind. unfold returns at 2. split.
  - intros (a & H & K). eauto.
  - intros [[[] H] K]. eauto.
Qed.

Lemma returns_print (s : string) (w : World) : returns (print s) w.
Proof. exists tt. reflexivity. Qed.

Lemma returns_if {A} (b : bool) (m1 m2 : M A) (w : World) :
  returns m1 w -> returns m2 w -> returns (if b then m1 else m2) w.
Proof. destruct b; auto. Qed.

Lemma returns_for_each {A} (body : A -> M unit) (w : World) (l : list A) :
  returns (for_each l body) w <-> Forall (fun x => returns (body x) w) l.
Proof.
  induction l as [|x l IH]; cbn [for_each].
  - split; [constructor | exists tt; reflexivity].
  - rewrite returns_seq, IH. split.
    + intros [H1 H2]. constructor; assumption.
    + intros H. inversion H; subst. auto.
Qed.

Lemma returns_for_each_with {A S} (body : A -> S -> M S) (P : A -> Prop) (w : World) :
  (forall x s, returns (body x s) w <-> P x) ->
  forall (l : list A) (s : S), returns (for_each_with l s body) w <-> Forall P l.
Proof.
  intros Hbody. induction l as [|x l IH]; intros s; cbn [for_each_with].
  - split; [constructor | exists s; reflexivity].
  - rewrite returns_bind. split.
    + intros (s' & H & K). constructor.
      * apply (Hbody x s). exists s'. exact H.
      * apply (IH s'). exact K.
    + intros H. inversion H as [|? ? Hx Hl]; subst.
      apply (Hbody x s) in Hx. destruct Hx as [s' Hs'].
      exists s'. split; [exact Hs' | apply IH; exact Hl].
Qed.

Lemma returns_required_body (w : World) (package : string * string) :
  returns (let '(package_name, import_name) := package in
           installed <- check_python_module import_name ;;
           if installed : bool
           then print ("  [OK] " ++ package_name ++ " installed")
           else print ("  [MISSING] " ++ package_name ++ " - install with: pip install "
                       ++ package_name)) w
  <-> import_contained w (snd package) = true.
Proof.
  destruct package as [package_name import_name]. cbn [snd].
  rewrite returns_bind, <- check_python_module_returns. split.
  - intros (b & H & _). eauto.
  - intros [b H]. exists b. split; [exact H|]. apply returns_if; apply returns_print.
Qed.

Lemma returns_optional_body (w : World) (package : string * string * string) :
  returns (let '(package_name, import_name, description) := package in
           installed <- check_python_module import_name ;;
           if installed : bool
           then print ("  [OK] " ++ package_name ++ " - " ++ description)
           else (print ("  [OPTIONAL] " ++ package_name ++ " - " ++ description) ;;
                 print ("             Install with: pip install " ++ package_name))) w
  <-> import_contained w (snd (fst package)) = true.
Proof.
  destruct package as [[package_name import_name] description]. cbn [fst snd].
  rewrite returns_bind, <- check_python_module_returns. split.
  - intros (b & H & _). eauto.
  - intros [b H]. exists b. split; [exact H|].
    apply returns_if; [|apply returns_seq; split]; apply returns_print.
Qed.

Lemma returns_external_tools_body (w : World) (tool : string * string * string * string)
  (tools_available : nat) :
  returns (external_tools_body tool tools_available) w
  <-> spawn_contained w (fst (fst (fst tool))) = true.
Proof.
  destruct tool as [[[cmd name] description] install_info]. cbn [fst external_tools_body].
  rewrite returns_bind, <- (check_command_returns cmd name). split.
  - intros (b & H & _). eauto.
  - intros [b H]. exists b. split; [exact H|].
    destruct b.
    + apply returns_seq. split; [apply returns_print | eexists; reflexivity].
    + apply returns_seq. split; [apply returns_print|].
      apply returns_seq. split; [apply returns_print | eexists; reflexivity].
Qed.

(** ** The sections of the report that only print *)

Lemma banner_run (w : World) :
  banner w = (map Printed [bar; "PRC Setup Verification"; bar], Return tt).
Proof. reflexivity. Qed.

Lemma python_version_check_run (w : World) :
  python_version_check w =
  (map Printed [nl ++ "Python Version: " ++ sys_version w;
              match tuple_lt (as_tuple (sys_version_info w)) [PInt 3; PInt 9] with
              | Return true => "  [WARNING] Python 3.9+ is recommended"
              | _ => "  [OK] Python version is compatible"
              end],
   Return tt).
Proof.
  unfold python_version_check, bind, ask, lift, print.
  destruct (version_test_total (sys_version_info w)) as [-> | ->]; reflexivity.
Qed.

Lemma builtin_scanner_run (w : World) :
  builtin_scanner w = (map Printed builtin_lines, Return tt).
Proof. reflexivity. Qed.

Lemma summary_run (tools_available : nat) (w : World) :
  summary tools_available w =
  (map Printed (summary_header ++ summary_body tools_available), Return tt).
Proof.
  unfold summary, summary_body, bind, print.
  destruct (tools_available =? 0)%nat; reflexivity.
Qed.

Lemma environment_check_run (w : World) :
  environment_check w = (map Printed (environment_header :: environment_body w), Return tt).
Proof.
  unfold environment_check, environment_body, bind, print, os_getenv, ask.
  destruct (truthy (environ w "OPENAI_API_KEY")); reflexivity.
Qed.

Lemma usage_run (w : World) : usage w = (map Printed usage_lines, Return tt).
Proof. reflexivity. Qed.

Lemma main_report_run (tools_available : nat) (w : World) :
  main_report tools_available w =
  (map Printed (builtin_lines ++ summary_header ++ summary_body tools_available
              ++ environment_header :: environment_body w ++ usage_lines),
   Return tt).
Proof.
  unfold main_report.
  rewrite (bind_Return _ _ _ _ _ (builtin_scanner_run w)).
  rewrite (bind_Return _ _ _ _ _ (summary_run tools_available w)).
  rewrite (bind_Return _ _ _ _ _ (environment_check_run w)).
  rewrite usage_run. cbn [fst snd].
  rewrite <- !map_app, <- !app_assoc. reflexivity.
Qed.

(** ** The run as probes followed by the report *)

Lemma main_split (w : World) : main w = bind main_probes main_report w.
Proof.
  unfold main, main_probes.
  do 4 (rewrite bind_assoc; apply bind_ext; intros _).
  reflexivity.
Qed.

Lemma main_after_probes (w : World) (t : list event) (tools_available : nat) :
  main_probes w = (t, Return tools_available) ->
  main w =
  ((t ++ map Printed (builtin_lines ++ summary_header ++ summary_body tools_available
                    ++ environment_header :: environment_body w ++ usage_lines))%list,
   Return tt).
Proof.
  intros H. rewrite main_split, (bind_Return _ _ _ _ _ H), main_report_run. reflexivity.
Qed.

Lemma main_returns_iff_probes (w : World) : returns main w <-> returns main_probes w.
Proof.
  unfold returns. rewrite main_split. split.
  - intros [[] H]. destruct (bind main_probes main_report w) as [t r] eqn:E.
    cbn [snd] in H. subst r.
    destruct (bind_Return_inv _ _ _ _ _ E) as (t1 & n & _ & H1 & _ & _).
    exists n. rewrite H1. reflexivity.
  - intros [n H]. destruct (main_probes w) as [t r] eqn:E. cbn [snd] in H. subst r.
    rewrite (bind_Return _ _ _ _ _ E), main_report_run. exists tt. reflexivity.
Qed.

(** The probes come to their end exactly when no exception leaves a probe. *)
Lemma main_probes_returns (w : World) :
  returns main_probes w <-> probes_contained w = true.
Proof.
  unfold main_probes, probes_contained.
  rewrite returns_seq, returns_seq, returns_seq.
  unfold required_packages_check, optional_packages_check, external_tools_check.
  rewrite !returns_seq, !returns_for_each.
  rewrite (returns_for_each_with external_tools_body
             (fun tool => spawn_contained w (fst (fst (fst tool))) = true) w
             (returns_external_tools_body w)).
  rewrite !andb_true_iff, !forallb_forall, !Forall_forall.
  split.
  - intros (_ & _ & (_ & Hreq) & (_ & Hopt) & (_ & Htools)).
    repeat split.
    + intros [package_name import_name] Hin.
      exact (proj1 (returns_required_body w (package_name, import_name)) (Hreq _ Hin)).
    + intros [[package_name import_name] description] Hin.
      exact (proj1 (returns_optional_body w (package_name, import_name, description))
               (Hopt _ Hin)).
    + intros [[[cmd name] description] install_info] Hin.
      apply (Htools _ Hin).
  - intros [[Hreq Hopt] Htools].
    repeat split; try apply returns_print.
    + exists tt. rewrite banner_run. reflexivity.
    + exists tt. rewrite python_version_check_run. reflexivity.
    + intros [package_name import_name] Hin.
      exact (proj2 (returns_required_body w (package_name, import_name)) (Hreq _ Hin)).
    + intros [[package_name import_name] description] Hin.
      exact (proj2 (returns_optional_body w (package_name, import_name, description))
               (Hopt _ Hin)).
    + intros [[[cmd name] description] install_info] Hin.
      apply (Htools _ Hin).
Qed.

Lemma main_returns (w : World) : returns main w <-> probes_contained w = true.
Proof. rewrite main_returns_iff_probes. apply main_probes_returns. Qed.

(** A run that comes to its end printed the whole report. *)
Lemma main_completed (w : World) :
  returns main w ->
  exists t tools_available,
    main_probes w = (t, Return tools_available) /\
    main w =
    ((t ++ map Printed (builtin_lines ++ summary_header ++ summary_body tools_available
                      ++ environment_header :: environment_body w ++ usage_lines))%list,
     Return tt).
Proof.
  intros H. apply main_returns_iff_probes in H. destruct H as [n H].
  destruct (main_probes w) as [t r] eqn:E. cbn [snd] in H. subst r.
  exists t, n. split; [reflexivity | apply main_after_probes; exact E].
Qed.

(** ** The tool loop *)

Lemma external_tools_body_value (w : World) (tool : string * string * string * string)
  (s s' : nat) (t : list event) :
  external_tools_body tool s w = (t, Return s') ->
  s' = s + (if detected w tool then 1 else 0).
Proof.
  destruct tool as [[[cmd name] description] install_info].
  unfold external_tools_body, detected, bind, print, ret.
  destruct (check_command cmd name w) as [t0 [[|]|e]]; cbn [snd].
  - intros [= _ <-]. reflexivity.
  - intros [= _ <-]. lia.
  - discriminate.
Qed.

Lemma tool_loop_count (w : World) (l : list (string * string * string * string)) :
  forall (s n : nat) (t : list event),
    for_each_with l s external_tools_body w = (t, Return n) ->
    n = s + length (filter (detected w) l).
Proof.
  induction l as [|tool l IH]; intros s n t; cbn [for_each_with filter].
  - intros [= _ <-]. cbn. lia.
  - intros H. apply bind_Return_inv in H. destruct H as (t1 & s' & t2 & H1 & H2 & _).
    apply external_tools_body_value in H1. apply IH in H2.
    destruct (detected w tool); cbn [length]; lia.
Qed.

Lemma main_probes_count (w : World) (t : list event) (n : nat) :
  main_probes w = (t, Return n) -> n = length (filter (detected w) external_tools).
Proof.
  unfold main_probes, external_tools_check. intros H.
  do 5 (apply bind_Return_inv in H; destruct H as (? & ? & ? & _ & H & _)).
  apply tool_loop_count in H. exact H.
Qed.

Lemma filter_length_le {A} (f : A -> bool) (l : list A) :
  length (filter f l) <= length l.
Proof.
  induction l as [|x l IH]; cbn; [|destruct (f x); cbn]; lia.
Qed.

(** ** The first lines of every run *)

Lemma main_starts (w : World) :
  exists rest,
    fst (main w) =
    app (map Printed [bar; "PRC Setup Verification"; bar;
                    nl ++ "Python Version: " ++ sys_version w;
                    match tuple_lt (as_tuple (sys_version_info w)) [PInt 3; PInt 9] with
                    | Return true => "  [WARNING] Python 3.9+ is recommended"
                    | _ => "  [OK] Python version is compatible"
                    end;
                    nl ++ "--- Required Python Packages ---"]) rest.
Proof.
  unfold main.
  rewrite (bind_Return _ _ _ _ _ (banner_run w)).
  rewrite (bind_Return _ _ _ _ _ (python_version_check_run w)).
  unfold required_packages_check. rewrite bind_assoc.
  rewrite (bind_Return (print _) _ w [Printed (nl ++ "--- Required Python Packages ---")] tt
             eq_refl).
  cbn [fst]. eexists. cbn [map app]. reflexivity.
Qed.

(** ** A run does not look at the environment before its last section *)

Lemma bind_congr {A B} (m : M A) (k : A -> M B) (w w' : World) :
  m w' = m w -> (forall a, k a w' = k a w) -> bind m k w' = bind m k w.
Proof.
  intros Hm Hk. unfold bind. rewrite Hm.
  destruct (m w) as [t1 [a|e]]; [rewrite Hk|]; reflexivity.
Qed.

Lemma check_command_with_environ (cmd name : string) (w : World) (key : string)
  (value : option string) :
  check_command cmd name (with_environ w key value) = check_command cmd name w.
Proof. rewrite !check_command_run. reflexivity. Qed.

Lemma check_python_module_with_environ (module : string) (w : World) (key : string)
  (value : option string) :
  check_python_module module (with_environ w key value) = check_python_module module w.
Proof. rewrite !check_python_module_run. reflexivity. Qed.

Ltac same_run :=
  repeat first
    [ reflexivity
    | apply check_command_with_environ
    | apply check_python_module_with_environ
    | apply bind_congr; [ | intros ? ]
    | match goal with |- (if ?b then _ else _) _ = _ => destruct b end ].

Lemma main_probes_with_environ (w : World) (key : string) (value : option string) :
  main_probes (with_environ w key value) = main_probes w.
Proof.
  unfold main_probes, python_version_check, required_packages_check,
    optional_packages_check, external_tools_check, external_tools_body.
  cbn [for_each for_each_with required_packages optional_packages external_tools].
  same_run.
Qed.

(** ** What the summary says *)

Lemma summary_body_none :
  exists line, In line (summary_body 0)
               /\ str_in "No external tools installed." line = true.
Proof.
  exists (nl ++ "[INFO] No external tools installed."). split; [left|]; reflexivity.
Qed.

Lemma summary_body_some (n : nat) :
  0 < n ->
  exists line, In line (summary_body n)
               /\ str_in (str_of_nat n ++ " external tool(s) available") line = true.
Proof.
  intros Hn. unfold summary_body.
  destruct (Nat.eqb_spec n 0) as [E|_]; [lia|].
  eexists. split; [left; reflexivity|].
  change (nl ++ "[OK] " ++ str_of_nat n ++ " external tool(s) available + built-in scanner")
    with ((nl ++ "[OK] ") ++ str_of_nat n
          ++ " external tool(s) available" ++ " + built-in scanner").
  rewrite (append_assoc_str (str_of_nat n)).
  apply str_in_append.
Qed.

(** * The command probe *)



(** C2. [check_command] runs the command once, with [--version], or with
    [-v] when the command is [checkov]; the child's output is captured, the
    wait is 10 time units, nothing reaches the script's standard output, and
    the result is the same whatever the child wrote. *)
Theorem check_command_invocation (w : World) (cmd name : string) :
  fst (check_command cmd name w) =
  [Spawned [cmd; if cmd =? "checkov" then "-v" else "--version"] true 10]
  /\ stdout (fst (check_command cmd name w)) = []
  /\ (forall w', same_exit (spawn w (check_command_args cmd))
                           (spawn w' (check_command_args cmd)) ->
                 check_command cmd name w' = check_command cmd name w).
Proof.
  split; [|split].
  - rewrite check_command_run. cbn [fst]. unfold check_command_args.
    destruct (cmd =? "checkov"); reflexivity.
  - rewrite check_command_run. reflexivity.
  - intros w' H. rewrite !check_command_run. f_equal.
    destruct (spawn w (check_command_args cmd)) as [e|p],
             (spawn w' (check_command_args cmd)) as [e'|p']; cbn in H;
      try contradiction.
    + subst e'. reflexivity.
    + destruct H as [Hd Hr]. unfold ends_within. rewrite Hd, Hr. reflexivity.
Qed.

Lemma check_command_invocation_witness :
  same_exit (spawn full_machine (check_command_args "checkov"))
            (spawn quiet_machine (check_command_args "checkov"))
  /\ check_command "checkov" "Checkov" quiet_machine
     = check_command "checkov" "Checkov" full_machine.
Proof.
  assert (H : same_exit (spawn full_machine (check_command_args "checkov"))
                        (spawn quiet_machine (check_command_args "checkov")))
    by (split; reflexivity).
  split; [exact H|].
  exact (proj2 (proj2 (check_command_invocation full_machine "checkov" "Checkov"))
           quiet_machine H).
Defined.

(** C8. The result of [check_command] does not depend on its second
    argument [name]: on the same machine two calls with the same [cmd] do the
    same and return the same. *)
Theorem check_command_ignores_name (w : World) (cmd name name' : string) :
  check_command cmd name w = check_command cmd name' w.
Proof. rewrite !check_command_run. reflexivity. Qed.

(** * The module probe *)

(** C3, as the code has it.  [check_python_module] returns [True] exactly
    when the module loads, [False] exactly when the load raises
    [ImportError] or a subclass of it, and lets every other exception raised
    by the load through. *)
Theorem check_python_module_result (w : World) (module : string) :
  (snd (check_python_module module w) = Return true <-> load w module = Loaded)
  /\ (snd (check_python_module module w) = Return false <->
      exists e, load w module = LoadRaises e /\ issubclass e ImportError = true)
  /\ (forall e, load w module = LoadRaises e ->
                issubclass e ImportError = false ->
                snd (check_python_module module w) = Raise e).
Proof.
  rewrite check_python_module_run. cbn [snd].
  assert (Hh : forall e, handles [ImportError] e = issubclass e ImportError)
    by (intros e; cbn; apply orb_false_r).
  destruct (load w module) as [|e0].
  - split; [split; reflexivity|]. split; [split|].
    + discriminate.
    + intros (e & H & _). discriminate H.
    + intros e H. discriminate H.
  - rewrite Hh. split; [split|split; [split|]].
    + destruct (issubclass e0 ImportError); discriminate.
    + discriminate.
    + destruct (issubclass e0 ImportError) eqn:E; [|discriminate].
      intros _. exists e0. auto.
    + intros (e & [= <-] & ->). reflexivity.
    + intros e [= <-] ->. reflexivity.
Qed.

Lemma check_python_module_result_witness :
  snd (check_python_module "click" full_machine) = Return true
  /\ snd (check_python_module "click" bare_machine) = Return false
  /\ snd (check_python_module "openai" unparsable_openai_machine) = Raise SyntaxError.
Proof.
  split; [|split].
  - apply (proj1 (check_python_module_result full_machine "click")). reflexivity.
  - apply (proj1 (proj2 (check_python_module_result bare_machine "click"))).
    exists ModuleNotFoundError. split; reflexivity.
  - apply (proj2 (proj2 (check_python_module_result unparsable_openai_machine "openai")));
      reflexivity.
Defined.

(** C3 as stated fails: the [openai] package is there but cannot be loaded,
    and the probe raises instead of returning [False]. *)
Lemma check_python_module_raises :
  load unparsable_openai_machine "openai" <> Loaded
  /\ snd (check_python_module "openai" unparsable_openai_machine) <> Return false
  /\ snd (check_python_module "openai" unparsable_openai_machine) = Raise SyntaxError.
Proof. repeat split; discriminate. Qed.

(** * The report *)

Lemma no_line_contains (sub : string) (lines : list string) :
  forallb (fun line => negb (str_in sub line)) lines = true ->
  forall line, In line lines -> str_in sub line <> true.
Proof.
  intros H line Hin Hsub. rewrite forallb_forall in H.
  specialize (H line Hin). rewrite Hsub in H. discriminate H.
Qed.




(** C5, as the code has it.  On a machine where no exception leaves a probe
    the run comes to its end, and its summary section (between the "Summary"
    header and the environment header) has a line containing
    "No external tools installed." when no tool was detected, and a line
    containing "N external tool(s) available" when N > 0 tools were. *)
Theorem summary_states_tool_count (w : World) :
  probes_contained w = true ->
  exists before body after,
    snd (main w) = Return tt
    /\ stdout (fst (main w))
       = app before (app summary_header (app body (environment_header :: after)))
    /\ (length (filter (detected w) external_tools) = 0 ->
        exists line, In line body
                     /\ str_in "No external tools installed." line = true)
    /\ (0 < length (filter (detected w) external_tools) ->
        exists line,
          In line body
          /\ str_in (str_of_nat (length (filter (detected w) external_tools))
                     ++ " external tool(s) available") line = true).
Proof.
  intros H. apply main_returns, main_completed in H. destruct H as (t & n & Hp & Hm).
  apply main_probes_count in Hp. rewrite <- Hp.
  exists (app (stdout t) builtin_lines), (summary_body n),
    (app (environment_body w) usage_lines).
  split; [rewrite Hm; reflexivity|]. split; [|split].
  - rewrite Hm. cbn [fst]. rewrite stdout_app, stdout_prints, <- !app_assoc. reflexivity.
  - intros ->. apply summary_body_none.
  - apply summary_body_some.
Qed.

Lemma summary_states_tool_count_witness :
  (exists line, In line (stdout (fst (main bare_machine)))
                /\ str_in "No external tools installed." line = true)
  /\ (exists line, In line (stdout (fst (main full_machine)))
                   /\ str_in "3 external tool(s) available" line = true).
Proof.
  split.
  - destruct (summary_states_tool_count bare_machine)
      as (before & body & after & _ & E & H & _).
    + reflexivity.
    + destruct (H eq_refl) as (line & Hin & Hsub).
      exists line. split; [|exact Hsub].
      rewrite E. apply in_or_app. right. apply in_or_app. right.
      apply in_or_app. left. exact Hin.
  - destruct (summary_states_tool_count full_machine)
      as (before & body & after & _ & E & _ & H).
    + reflexivity.
    + destruct H as (line & Hin & Hsub).
      * vm_compute. lia.
      * exists line. split; [|exact Hsub].
        rewrite E. apply in_or_app. right. apply in_or_app. right.
        apply in_or_app. left. exact Hin.
Defined.

(** C5 as stated fails on a run that stops early: no tool is detected, and
    the output has no summary. *)
Lemma summary_missing_when_run_stops :
  length (filter (detected unexecutable_trivy_machine) external_tools) = 0
  /\ ~ (exists line, In line (stdout (fst (main unexecutable_trivy_machine)))
                     /\ str_in "No external tools installed." line = true).
Proof.
  split; [reflexivity|]. intros (line & Hin & Hsub).
  apply (no_line_contains "No external tools installed."
           (stdout (fst (main unexecutable_trivy_machine))) eq_refl line Hin).
  exact Hsub.
Qed.

(** C6, as the code has it.  On a machine where no exception leaves a probe
    the run comes to its end, and its environment section has a line
    containing "AI insights will use fallback mode" when [OPENAI_API_KEY] is
    unset, and a line containing "AI insights enabled" when it is set to a
    non-empty value. *)
Theorem environment_section_states_key (w : World) :
  probes_contained w = true ->
  exists before body,
    snd (main w) = Return tt
    /\ stdout (fst (main w)) = app before (environment_header :: app body usage_lines)
    /\ (environ w "OPENAI_API_KEY" = None ->
        exists line, In line body
                     /\ str_in "AI insights will use fallback mode" line = true)
    /\ (forall value, environ w "OPENAI_API_KEY" = Some value -> value <> "" ->
        exists line, In line body /\ str_in "AI insights enabled" line = true).
Proof.
  intros H. apply main_returns, main_completed in H. destruct H as (t & n & _ & Hm).
  exists (app (stdout t) (app builtin_lines (app summary_header (summary_body n)))),
    (environment_body w).
  split; [rewrite Hm; reflexivity|]. split; [|split].
  - rewrite Hm. cbn [fst]. rewrite stdout_app, stdout_prints, <- !app_assoc. reflexivity.
  - intros E. unfold environment_body. rewrite E. cbn [truthy].
    eexists. split; [left; reflexivity | reflexivity].
  - intros value E Hne. unfold environment_body. rewrite E. cbn [truthy].
    destruct (String.eqb_spec value "") as [->|_]; [contradiction|]. cbn [negb].
    eexists. split; [left; reflexivity | reflexivity].
Qed.

Lemma environment_section_states_key_witness :
  (exists line, In line (stdout (fst (main bare_machine)))
                /\ str_in "AI insights will use fallback mode" line = true)
  /\ (exists line, In line (stdout (fst (main full_machine)))
                   /\ str_in "AI insights enabled" line = true).
Proof.
  split.
  - destruct (environment_section_states_key bare_machine)
      as (before & body & _ & E & H & _).
    + reflexivity.
    + destruct (H eq_refl) as (line & Hin & Hsub).
      exists line. split; [|exact Hsub].
      rewrite E. apply in_or_app. right. right. apply in_or_app. left. exact Hin.
  - destruct (environment_section_states_key full_machine)
      as (before & body & _ & E & _ & H).
    + reflexivity.
    + destruct (H "sk-test" eq_refl) as (line & Hin & Hsub).
      * discriminate.
      * exists line. split; [|exact Hsub].
        rewrite E. apply in_or_app. right. right. apply in_or_app. left. exact Hin.
Defined.

(** C6 as stated fails on a run that stops early: the variable is unset and
    the output has no environment section. *)
Lemma fallback_line_missing_when_run_stops :
  environ unexecutable_trivy_machine "OPENAI_API_KEY" = None
  /\ ~ (exists line, In line (stdout (fst (main unexecutable_trivy_machine)))
                     /\ str_in "AI insights will use fallback mode" line = true).
Proof.
  split; [reflexivity|]. intros (line & Hin & Hsub).
  apply (no_line_contains "AI insights will use fallback mode"
           (stdout (fst (main unexecutable_trivy_machine))) eq_refl line Hin).
  exact Hsub.
Qed.

(** C7. Every run starts with the banner and the version line.  When the
    interpreter is older than 3.9 the next line is the "[WARNING]" line, and
    the run goes on with the package section; otherwise the next line is
    "  [OK] Python version is compatible". *)
Theorem python_version_verdict (w : World) :
  (older_than_3_9 (sys_version_info w) ->
   exists rest,
     stdout (fst (main w))
     = app [bar; "PRC Setup Verification"; bar;
            nl ++ "Python Version: " ++ sys_version w;
            "  [WARNING] Python 3.9+ is recommended";
            nl ++ "--- Required Python Packages ---"] rest)
  /\ str_in "[WARNING]" "  [WARNING] Python 3.9+ is recommended" = true
  /\ (~ older_than_3_9 (sys_version_info w) ->
      exists rest,
        stdout (fst (main w))
        = app [bar; "PRC Setup Verification"; bar;
               nl ++ "Python Version: " ++ sys_version w;
               "  [OK] Python version is compatible";
               nl ++ "--- Required Python Packages ---"] rest).
Proof.
  destruct (main_starts w) as [rest E].
  split; [|split; [reflexivity|]]; intros H; exists (stdout rest);
    rewrite E, stdout_app, stdout_prints.
  - apply version_test_older in H. rewrite H. reflexivity.
  - destruct (version_test_total (sys_version_info w)) as [T | T].
    + apply version_test_older in T. contradiction.
    + rewrite T. reflexivity.
Qed.

Lemma python_version_verdict_witness :
  In "  [WARNING] Python 3.9+ is recommended" (stdout (fst (main bare_machine)))
  /\ In "  [OK] Python version is compatible" (stdout (fst (main full_machine))).
Proof.
  split.
  - destruct (proj1 (python_version_verdict bare_machine)) as [rest E].
    + right. cbn. lia.
    + rewrite E. apply in_or_app. left. do 4 right. left. reflexivity.
  - destruct (proj2 (proj2 (python_version_verdict full_machine))) as [rest E].
    + unfold older_than_3_9. cbn. lia.
    + rewrite E. apply in_or_app. left. do 4 right. left. reflexivity.
Defined.

(** C9. With [OPENAI_API_KEY] set to the empty string the run is the run
    with the variable unset, event for event; the environment section prints
    its header and the two "[NOT SET]" lines, and not the line that says the
    insights are enabled; on a machine where no exception leaves a probe
    these lines are in the output, just before the closing lines. *)
Theorem empty_key_is_unset (w : World) :
  environ w "OPENAI_API_KEY" = Some "" ->
  main w = main (with_environ w "OPENAI_API_KEY" None)
  /\ environment_check w
     = (map Printed [environment_header;
                   "  [NOT SET] OPENAI_API_KEY - AI insights will use fallback mode";
                   "            Set with: export OPENAI_API_KEY=your-key"],
        Return tt)
  /\ ~ In (Printed "  [OK] OPENAI_API_KEY is set (AI insights enabled)")
          (fst (environment_check w))
  /\ (probes_contained w = true ->
      exists before,
        snd (main w) = Return tt
        /\ stdout (fst (main w))
        = app before
            (environment_header
             :: "  [NOT SET] OPENAI_API_KEY - AI insights will use fallback mode"
             :: "            Set with: export OPENAI_API_KEY=your-key"
             :: usage_lines)).
Proof.
  intros E.
  assert (Hbody : environment_body w
                  = ["  [NOT SET] OPENAI_API_KEY - AI insights will use fallback mode";
                     "            Set with: export OPENAI_API_KEY=your-key"])
    by (unfold environment_body; rewrite E; reflexivity).
  assert (Hcheck : environment_check w
                   = (map Printed
                        [environment_header;
                         "  [NOT SET] OPENAI_API_KEY - AI insights will use fallback mode";
                         "            Set with: export OPENAI_API_KEY=your-key"],
                      Return tt))
    by (rewrite environment_check_run, Hbody; reflexivity).
  split; [|split; [exact Hcheck|split]].
  - rewrite !main_split. symmetry. apply bind_congr.
    + apply main_probes_with_environ.
    + intros n. rewrite !main_report_run. unfold environment_body at 2. rewrite E.
      reflexivity.
  - rewrite Hcheck. cbn [fst map In]. intros [H|[H|[H|[]]]]; discriminate H.
  - intros H. apply main_returns, main_completed in H. destruct H as (t & n & _ & Hm).
    exists (app (stdout t) (app builtin_lines (app summary_header (summary_body n)))).
    rewrite Hm, Hbody. cbn [fst snd]. split; [reflexivity|].
    rewrite stdout_app, stdout_prints, <- !app_assoc. reflexivity.
Qed.

Lemma empty_key_is_unset_witness :
  environ empty_key_machine "OPENAI_API_KEY" = Some ""
  /\ main empty_key_machine = main (with_environ empty_key_machine "OPENAI_API_KEY" None)
  /\ In "  [NOT SET] OPENAI_API_KEY - AI insights will use fallback mode"
        (stdout (fst (main empty_key_machine))).
Proof.
  destruct (empty_key_is_unset empty_key_machine eq_refl) as (Hsame & _ & _ & Hlines).
  split; [reflexivity|]. split; [exact Hsame|].
  destruct Hlines as (before & _ & E).
  - reflexivity.
  - rewrite E. apply in_or_app. right. right. left. reflexivity.
Defined.

(** C10, as the code has it.  On a machine where no exception leaves a
    probe the tool loop comes to its end, and [tools_available] is then the number of entries of
    the three-entry tool table (trivy, checkov, gitleaks) for which
    [check_command] returned [True], so it lies between 0 and 3; the
    "[ALWAYS AVAILABLE] Built-in Secret Scanner" line is printed after the
    loop whatever that count is. *)
Theorem tools_available_counts_detected (w : World) :
  probes_contained w = true ->
  exists t tools_available,
    main_probes w = (t, Return tools_available)
    /\ tools_available = length (filter (detected w) external_tools)
    /\ map (fun tool => fst (fst (fst tool))) external_tools
       = ["trivy"; "checkov"; "gitleaks"]
    /\ 0 <= tools_available <= 3
    /\ In "  [ALWAYS AVAILABLE] Built-in Secret Scanner" (stdout (fst (main w)))
    /\ (forall n, In (Printed "  [ALWAYS AVAILABLE] Built-in Secret Scanner")
                     (fst (main_report n w))).
Proof.
  intros H. apply main_probes_returns in H. destruct H as [n H].
  destruct (main_probes w) as [t r] eqn:E. cbn [snd] in H. subst r.
  exists t, n. pose proof (main_probes_count _ _ _ E) as Hn.
  split; [reflexivity|]. split; [exact Hn|]. split; [reflexivity|]. split; [|split].
  - pose proof (filter_length_le (detected w) external_tools) as Hle.
    change (length external_tools) with 3 in Hle. lia.
  - rewrite (main_after_probes _ _ _ E). cbn [fst].
    rewrite stdout_app, stdout_prints.
    apply in_or_app. right. apply in_or_app. left. right. left. reflexivity.
  - intros k. rewrite main_report_run. cbn [fst]. rewrite map_app.
    apply in_or_app. left. right. left. reflexivity.
Qed.

Lemma tools_available_counts_detected_witness :
  probes_contained full_machine = true
  /\ length (filter (detected full_machine) external_tools) = 3
  /\ In "  [ALWAYS AVAILABLE] Built-in Secret Scanner" (stdout (fst (main full_machine))).
Proof.
  destruct (tools_available_counts_detected full_machine eq_refl)
    as (t & n & _ & _ & _ & _ & Hin & _).
  split; [reflexivity|]. split; [reflexivity | exact Hin].
Defined.

(** C10 as stated fails on a run that stops in the tool loop: the line of
    the built-in scanner is not printed. *)
Lemma builtin_line_missing_when_run_stops :
  ~ In "  [ALWAYS AVAILABLE] Built-in Secret Scanner"
       (stdout (fst (main unexecutable_trivy_machine))).
Proof.
  intros Hin.
  apply (no_line_contains "[ALWAYS AVAILABLE]"
           (stdout (fst (main unexecutable_trivy_machine))) eq_refl _ Hin).
  reflexivity.
Qed.

(** * More on the command probe *)

(** X1. A tool that starts but exits with a status other than 0 is
    reported as absent: [check_command] returns [False], and raises
    nothing, whether the call ends in time or not. *)
Theorem check_command_false_on_failure (w : World) (cmd name : string) (p : process) :
  spawn w (check_command_args cmd) = Started p ->
  returncode p <> 0%Z ->
  snd (check_command cmd name w) = Return false.
Proof.
  intros Hs Hr. rewrite check_command_run, Hs. cbn [snd].
  destruct (ends_within 10 p); [|reflexivity].
  destruct (Z.eqb_spec (returncode p) 0) as [E|_]; [contradiction | reflexivity].
Qed.

Lemma check_command_false_on_failure_witness :
  snd (check_command "trivy" "Trivy" failing_tool_machine) = Return false.
Proof.
  apply (check_command_false_on_failure failing_tool_machine "trivy" "Trivy" failing).
  - reflexivity.
  - discriminate.
Defined.

(** X2. [check_command] raises exactly what the spawn raised, when that is
    neither [FileNotFoundError] nor [TimeoutExpired]; it never raises one of
    these two. *)
Theorem check_command_raises_iff (w : World) (cmd name : string) (e : exn) :
  snd (check_command cmd name w) = Raise e
  <-> spawn w (check_command_args cmd) = SpawnRaises e
      /\ e <> FileNotFoundError /\ e <> TimeoutExpired.
Proof.
  rewrite check_command_run. cbn [snd].
  destruct (spawn w (check_command_args cmd)) as [e0|p].
  - destruct (handles [FileNotFoundError; TimeoutExpired] e0) eqn:H.
    + apply handles_not_found_or_timeout in H. split.
      * discriminate.
      * intros ([= <-] & H1 & H2). destruct H; contradiction.
    + split.
      * intros [= <-]. split; [reflexivity|].
        split; intros ->; discriminate H.
      * intros ([= <-] & _). reflexivity.
  - split.
    + destruct (ends_within 10 p); discriminate.
    + intros (H & _). discriminate H.
Qed.

Lemma check_command_raises_iff_witness :
  snd (check_command "trivy" "Trivy" unexecutable_trivy_machine) = Raise PermissionError.
Proof.
  apply (proj2 (check_command_raises_iff unexecutable_trivy_machine "trivy" "Trivy"
                  PermissionError)).
  split; [reflexivity|]. split; discriminate.
Defined.

(** * More on the run *)

Lemma snd_bind {A B} (m : M A) (k : A -> M B) (w : World) :
  snd (bind m k w) =
  match snd (m w) with
  | Return a => snd (k a w)
  | Raise e => Raise e
  end.
Proof.
  unfold bind. destruct (m w) as [t1 [a|e]]; [|reflexivity].
  cbn [snd]. destruct (k a w). reflexivity.
Qed.

Lemma for_each_outcome {A} (body : A -> M unit) (f : A -> option exn) (w : World) :
  (forall x, snd (body x w) = match f x with None => Return tt | Some e => Raise e end) ->
  forall l, snd (for_each l body w)
            = match first_some f l with None => Return tt | Some e => Raise e end.
Proof.
  intros Hbody. induction l as [|x l IH]; cbn [for_each first_some]; [reflexivity|].
  rewrite snd_bind, Hbody. destruct (f x); [reflexivity | exact IH].
Qed.

Lemma for_each_with_outcome {A S} (body : A -> S -> M S) (f : A -> option exn) (w : World) :
  (forall x s, match f x with
               | None => exists s', snd (body x s w) = Return s'
               | Some e => snd (body x s w) = Raise e
               end) ->
  forall l s, match first_some f l with
              | None => exists s', snd (for_each_with l s body w) = Return s'
              | Some e => snd (for_each_with l s body w) = Raise e
              end.
Proof.
  intros Hbody. induction l as [|x l IH]; intros s; cbn [for_each_with first_some].
  - exists s. reflexivity.
  - rewrite snd_bind. specialize (Hbody x s). destruct (f x) as [e|].
    + rewrite Hbody. reflexivity.
    + destruct Hbody as [s' ->]. apply IH.
Qed.

Lemma check_python_module_outcome (module : string) (w : World) :
  match uncaught_import w module with
  | None => exists b, snd (check_python_module module w) = Return b
  | Some e => snd (check_python_module module w) = Raise e
  end.
Proof.
  rewrite check_python_module_run. unfold uncaught_import. cbn [snd].
  destruct (load w module) as [|e]; [eauto|].
  destruct (handles [ImportError] e); eauto.
Qed.

Lemma check_command_outcome (cmd name : string) (w : World) :
  match uncaught_spawn w cmd with
  | None => exists b, snd (check_command cmd name w) = Return b
  | Some e => snd (check_command cmd name w) = Raise e
  end.
Proof.
  rewrite check_command_run. unfold uncaught_spawn. cbn [snd].
  destruct (spawn w (check_command_args cmd)) as [e|p].
  - destruct (handles [FileNotFoundError; TimeoutExpired] e); eauto.
  - destruct (ends_within 10 p); eauto.
Qed.

Lemma required_packages_outcome (w : World) :
  snd (required_packages_check w)
  = match first_some (fun '(_, import_name) => uncaught_import w import_name)
            required_packages with
    | None => Return tt
    | Some e => Raise e
    end.
Proof.
  unfold required_packages_check. rewrite snd_bind. cbn [snd print].
  apply for_each_outcome. intros [package_name import_name].
  rewrite snd_bind. pose proof (check_python_module_outcome import_name w) as H.
  destruct (uncaught_import w import_name) as [e|].
  - rewrite H. reflexivity.
  - destruct H as [[|] ->]; reflexivity.
Qed.

Lemma optional_packages_outcome (w : World) :
  snd (optional_packages_check w)
  = match first_some (fun '(_, import_name, _) => uncaught_import w import_name)
            optional_packages with
    | None => Return tt
    | Some e => Raise e
    end.
Proof.
  unfold optional_packages_check. rewrite snd_bind. cbn [snd print].
  apply for_each_outcome. intros [[package_name import_name] description].
  rewrite snd_bind. pose proof (check_python_module_outcome import_name w) as H.
  destruct (uncaught_import w import_name) as [e|].
  - rewrite H. reflexivity.
  - destruct H as [[|] ->]; reflexivity.
Qed.

Lemma external_tools_outcome (w : World) :
  match first_some (fun '(cmd, _, _, _) => uncaught_spawn w cmd) external_tools with
  | None => exists n, snd (external_tools_check w) = Return n
  | Some e => snd (external_tools_check w) = Raise e
  end.
Proof.
  unfold external_tools_check.
  assert (E : forall l s,
             snd ((print (nl ++ "--- External Scanning Tools ---") ;;
                   for_each_with l s external_tools_body) w)
             = snd (for_each_with l s external_tools_body w))
    by (intros l s; rewrite snd_bind; reflexivity).
  rewrite E. apply for_each_with_outcome.
  intros [[[cmd name] description] install_info] s.
  unfold external_tools_body. rewrite snd_bind.
  pose proof (check_command_outcome cmd name w) as H.
  destruct (uncaught_spawn w cmd) as [e|].
  - rewrite H. reflexivity.
  - destruct H as [[|] ->]; eexists; reflexivity.
Qed.

(** X3. A run raises the first exception that leaves a probe, taking the
    probes in the order required packages, optional packages, tools; when
    none does, it returns. *)
Theorem main_raises_first_uncaught (w : World) :
  snd (main w) = match first_uncaught w with
                 | None => Return tt
                 | Some e => Raise e
                 end.
Proof.
  rewrite main_split, snd_bind. unfold main_probes, first_uncaught.
  rewrite snd_bind, banner_run. cbn [snd].
  rewrite snd_bind, python_version_check_run. cbn [snd].
  rewrite snd_bind, required_packages_outcome.
  destruct (first_some _ required_packages) as [e|]; [reflexivity|].
  rewrite snd_bind, optional_packages_outcome.
  destruct (first_some _ optional_packages) as [e|]; [reflexivity|].
  pose proof (external_tools_outcome w) as H.
  destruct (first_some _ external_tools) as [e|].
  - rewrite H. reflexivity.
  - destruct H as [n ->]. rewrite main_report_run. reflexivity.
Qed.

Lemma children_app (t1 t2 : list event) :
  children (t1 ++ t2) = (children t1 ++ children t2)%list.
Proof. unfold children. apply filter_app. Qed.

Lemma children_prints (l : list string) : children (map Printed l) = [].
Proof. induction l as [|s l IH]; [reflexivity | exact IH]. Qed.

Lemma does_within_bind {A B} (m : M A) (k : A -> M B) (L L1 L2 : list event) (w : World) :
  does_within m L1 w ->
  (forall a, does_within (k a) L2 w) ->
  L = (L1 ++ L2)%list ->
  does_within (bind m k) L w.
Proof.
  unfold does_within, returns, bind. intros (r1 & E1 & R1) Hk ->.
  destruct (m w) as [t1 [a|e]]; cbn [fst snd] in *.
  - rewrite (R1 (ex_intro _ a eq_refl)), app_nil_r in E1.
    destruct (Hk a) as (r2 & E2 & R2). destruct (k a w) as [t2 r]. cbn [fst snd] in *.
    exists r2. split; [|exact R2].
    rewrite children_app, E1, E2, app_assoc. reflexivity.
  - exists (r1 ++ L2)%list. split.
    + rewrite E1, app_assoc. reflexivity.
    + intros [b H]. discriminate H.
Qed.

Lemma does_within_prints {A} (m : M A) (l : list string) (a : A) (w : World) :
  m w = (map Printed l, Return a) -> does_within m [] w.
Proof.
  intros H. exists []. rewrite H. cbn [fst]. rewrite children_prints. auto.
Qed.

Lemma does_within_print (s : string) (w : World) : does_within (print s) [] w.
Proof. exists []. auto. Qed.

Lemma does_within_ret {A} (a : A) (w : World) : does_within (ret a) [] w.
Proof. exists []. auto. Qed.

Lemma does_within_check_python_module (module : string) (w : World) :
  does_within (check_python_module module) [] w.
Proof.
  exists []. rewrite check_python_module_run. auto.
Qed.

Lemma does_within_check_command (cmd name : string) (w : World) :
  does_within (check_command cmd name) [Spawned (check_command_args cmd) true 10] w.
Proof.
  exists []. rewrite check_command_run. auto.
Qed.

Ltac does_within :=
  lazymatch goal with
  | |- does_within (bind _ _) _ _ =>
      eapply does_within_bind; [does_within | intros ?; does_within | reflexivity]
  | |- does_within (if ?b then _ else _) _ _ => destruct b; does_within
  | |- does_within (print _) _ _ => apply does_within_print
  | |- does_within (ret _) _ _ => apply does_within_ret
  | |- does_within (check_python_module _) _ _ => apply does_within_check_python_module
  | |- does_within (check_command _ _) _ _ => apply does_within_check_command
  | |- does_within banner _ _ => exact (does_within_prints _ _ _ _ (banner_run _))
  | |- does_within python_version_check _ _ =>
      exact (does_within_prints _ _ _ _ (python_version_check_run _))
  | |- does_within builtin_scanner _ _ =>
      exact (does_within_prints _ _ _ _ (builtin_scanner_run _))
  | |- does_within (summary _) _ _ => exact (does_within_prints _ _ _ _ (summary_run _ _))
  | |- does_within environment_check _ _ =>
      exact (does_within_prints _ _ _ _ (environment_check_run _))
  | |- does_within usage _ _ => exact (does_within_prints _ _ _ _ (usage_run _))
  end.




(** ** What a run depends on *)

Section Frame.
Variables w w' : World.
Hypothesis Hversion : sys_version w' = sys_version w.
Hypothesis Hinfo : sys_version_info w' = sys_version_info w.
Hypothesis Hload : forall module, load w' module = load w module.
Hypothesis Hspawn : forall args, same_exit (spawn w args) (spawn w' args).
Hypothesis Hkey :
  truthy (environ w' "OPENAI_API_KEY") = truthy (environ w "OPENAI_API_KEY").

Lemma check_python_module_frame (module : string) :
  check_python_module module w' = check_python_module module w.
Proof. rewrite !check_python_module_run, Hload. reflexivity. Qed.

Lemma check_command_frame (cmd name : string) :
  check_command cmd name w' = check_command cmd name w.
Proof.
  rewrite !check_command_run. f_equal.
  pose proof (Hspawn (check_command_args cmd)) as H.
  destruct (spawn w (check_command_args cmd)) as [e|p],
           (spawn w' (check_command_args cmd)) as [e'|p']; cbn in H;
    try contradiction.
  - subst e'. reflexivity.
  - destruct H as [Hd Hr]. unfold ends_within. rewrite Hd, Hr. reflexivity.
Qed.

Lemma main_frame : main w' = main w.
Proof.
  unfold main.
  apply bind_congr; [reflexivity | intros _].
  apply bind_congr;
    [rewrite !python_version_check_run, Hversion, Hinfo; reflexivity | intros _].
  apply bind_congr.
  { unfold required_packages_check. cbn [for_each required_packages].
    repeat first
      [ reflexivity
      | apply check_python_module_frame
      | apply bind_congr; [ | intros ? ]
      | match goal with |- (if ?b then _ else _) _ = _ => destruct b end ]. }
  intros _. apply bind_congr.
  { unfold optional_packages_check. cbn [for_each optional_packages].
    repeat first
      [ reflexivity
      | apply check_python_module_frame
      | apply bind_congr; [ | intros ? ]
      | match goal with |- (if ?b then _ else _) _ = _ => destruct b end ]. }
  intros _. apply bind_congr.
  { unfold external_tools_check, external_tools_body.
    cbn [for_each_with external_tools].
    repeat first
      [ reflexivity
      | apply check_command_frame
      | apply bind_congr; [ | intros ? ]
      | match goal with |- (if ?b then _ else _) _ = _ => destruct b end ]. }
  intros n. apply bind_congr; [reflexivity | intros _].
  apply bind_congr; [rewrite !summary_run; reflexivity | intros _].
  apply bind_congr; [|reflexivity].
  rewrite !environment_check_run. unfold environment_body. rewrite Hkey. reflexivity.
Qed.
End Frame.

(** X5. Of the environment the script itself reads one thing, whether
    [OPENAI_API_KEY] has a non-empty value: two machines that agree on the
    interpreter version, on what every import and every spawn does, and on
    whether the key is non-empty give the same run, event for event,
    whatever the value of the key and whatever else their environments
    hold. *)
Theorem main_reads_key_truth_only (w w' : World) :
  sys_version w' = sys_version w ->
  sys_version_info w' = sys_version_info w ->
  (forall module, load w' module = load w module) ->
  (forall args, same_exit (spawn w args) (spawn w' args)) ->
  truthy (environ w' "OPENAI_API_KEY") = truthy (environ w "OPENAI_API_KEY") ->
  main w' = main w.
Proof.
  intros Hv Hi Hl Hs Hk. apply main_frame.
  - exact Hv.
  - exact Hi.
  - exact Hl.
  - exact Hs.
  - exact Hk.
Qed.

Lemma main_reads_key_truth_only_witness : main other_key_machine = main full_machine.
Proof.
  apply (main_reads_key_truth_only full_machine other_key_machine); try reflexivity.
  intros args. split; reflexivity.
Defined.

(** X7. What the tools write does not show in a run: two machines that
    differ only in the output of the child processes (same start, same
    duration, same exit status) give the same run, event for event. *)
Theorem main_ignores_child_output (w w' : World) :
  sys_version w' = sys_version w ->
  sys_version_info w' = sys_version_info w ->
  (forall module, load w' module = load w module) ->
  (forall key, environ w' key = environ w key) ->
  (forall args, same_exit (spawn w args) (spawn w' args)) ->
  main w' = main w.
Proof.
  intros Hv Hi Hl He Hs. apply main_frame; try assumption.
  rewrite He. reflexivity.
Qed.

Lemma main_ignores_child_output_witness : main quiet_machine = main full_machine.
Proof.
  apply (main_ignores_child_output full_machine quiet_machine); try reflexivity.
  intros args. split; reflexivity.
Defined.

(** * The status lines of the sections *)

Lemma count_prefixed_app (tag : string) (l1 l2 : list string) :
  count_prefixed tag (l1 ++ l2) = count_prefixed tag l1 + count_prefixed tag l2.
Proof. unfold count_prefixed. rewrite filter_app, length_app. reflexivity. Qed.

Lemma count_prefixed_cons (tag line : string) (lines : list string) :
  count_prefixed tag (line :: lines)
  = (if prefix tag line then 1 else 0) + count_prefixed tag lines.
Proof. unfold count_prefixed. cbn [filter]. destruct (prefix tag line); reflexivity. Qed.

Lemma count_prefixed_nil (tag : string) : count_prefixed tag [] = 0.
Proof. reflexivity. Qed.

Lemma prefix_empty (s : string) : prefix "" s = true.
Proof. destruct s; reflexivity. Qed.

Lemma external_tools_body_lines (w : World) (tool : string * string * string * string)
  (s s' : nat) (t : list event) :
  external_tools_body tool s w = (t, Return s') ->
  count_prefixed "  [OK] " (stdout t) + count_prefixed "  [NOT INSTALLED] " (stdout t) = 1
  /\ s' = s + count_prefixed "  [OK] " (stdout t).
Proof.
  destruct tool as [[[cmd name] description] install_info].
  unfold external_tools_body, bind, print, ret.
  destruct (check_command cmd name w) as [t0 r] eqn:E.
  rewrite check_command_run in E. injection E as <- _.
  destruct r as [[|]|e]; [| |discriminate]; intros [= <- <-];
    cbn [stdout flat_map app]; rewrite !count_prefixed_cons; cbn;
    rewrite ?prefix_empty; cbn; split; lia.
Qed.

Lemma tool_loop_lines (w : World) (l : list (string * string * string * string)) :
  forall (s n : nat) (t : list event),
    for_each_with l s external_tools_body w = (t, Return n) ->
    count_prefixed "  [OK] " (stdout t) + count_prefixed "  [NOT INSTALLED] " (stdout t)
    = length l
    /\ n = s + count_prefixed "  [OK] " (stdout t).
Proof.
  induction l as [|tool l IH]; intros s n t; cbn [for_each_with].
  - intros [= <- <-]. cbn. lia.
  - intros H. apply bind_Return_inv in H. destruct H as (t1 & s' & t2 & H1 & H2 & ->).
    apply external_tools_body_lines in H1. apply IH in H2.
    rewrite stdout_app, !count_prefixed_app. cbn [length]. lia.
Qed.

Lemma external_tools_check_returns (w : World) :
  forallb (fun '(cmd, _, _, _) => spawn_contained w cmd) external_tools = true ->
  returns external_tools_check w.
Proof.
  intros H. unfold external_tools_check. apply returns_seq. split; [apply returns_print|].
  apply (returns_for_each_with external_tools_body
           (fun tool => spawn_contained w (fst (fst (fst tool))) = true) w
           (returns_external_tools_body w)).
  rewrite forallb_forall in H. apply Forall_forall.
  intros [[[cmd name] description] install_info] Hin. exact (H _ Hin).
Qed.

(** X8. When no exception leaves the tool probes, the tool section comes to
    its end with one status line per tool: as many "[OK]" lines as the
    counter [tools_available] says, and a "[NOT INSTALLED]" line for each of
    the other tools of the three. *)
Theorem tool_lines_match_counter (w : World) :
  forallb (fun '(cmd, _, _, _) => spawn_contained w cmd) external_tools = true ->
  exists t tools_available,
    external_tools_check w = (t, Return tools_available)
    /\ count_prefixed "  [OK] " (stdout t) = tools_available
    /\ count_prefixed "  [NOT INSTALLED] " (stdout t) = 3 - tools_available.
Proof.
  intros H. apply external_tools_check_returns in H. destruct H as [n H].
  destruct (external_tools_check w) as [t r] eqn:E. cbn [snd] in H. subst r.
  exists t, n. split; [reflexivity|].
  unfold external_tools_check in E. apply bind_Return_inv in E.
  destruct E as (t1 & [] & t2 & H1 & H2 & ->). injection H1 as <-.
  apply tool_loop_lines in H2. change (length external_tools) with 3 in H2.
  rewrite stdout_app, !count_prefixed_app.
  cbn [stdout flat_map app]. rewrite !(count_prefixed_cons _ _ []). cbn -[Nat.sub]. lia.
Qed.

Lemma tool_lines_match_counter_witness :
  exists t,
    external_tools_check checkov_only_machine = (t, Return 1)
    /\ count_prefixed "  [OK] " (stdout t) = 1
    /\ count_prefixed "  [NOT INSTALLED] " (stdout t) = 2.
Proof.
  destruct (tool_lines_match_counter checkov_only_machine eq_refl)
    as (t & n & E & Hok & Hni).
  assert (Hn : n = 1).
  { assert (H : snd (external_tools_check checkov_only_machine) = Return 1) by reflexivity.
    rewrite E in H. injection H as H. exact H. }
  rewrite Hn in E, Hok, Hni. exists t. split; [exact E|]. split; [exact Hok | exact Hni].
Defined.

Lemma check_python_module_loads (module : string) (w : World) (t : list event)
  (b : bool) :
  check_python_module module w = (t, Return b) ->
  t = [Imported module] /\ loads w module = b.
Proof.
  rewrite check_python_module_run. unfold loads.
  destruct (load w module) as [|e].
  - intros [= <- <-]. auto.
  - destruct (handles [ImportError] e); [|discriminate].
    intros [= <- <-]. auto.
Qed.

Lemma required_loop_lines (w : World) (l : list (string * string)) :
  forall t,
    for_each l (fun '(package_name, import_name) =>
      installed <- check_python_module import_name ;;
      if installed : bool
      then print ("  [OK] " ++ package_name ++ " installed")
      else print ("  [MISSING] " ++ package_name ++ " - install with: pip install "
                  ++ package_name)) w = (t, Return tt) ->
    count_prefixed "  [OK] " (stdout t)
    = length (filter (fun '(_, import_name) => loads w import_name) l)
    /\ count_prefixed "  [OK] " (stdout t) + count_prefixed "  [MISSING] " (stdout t)
       = length l.
Proof.
  induction l as [|[package_name import_name] l IH]; intros t; cbn [for_each].
  - cbv beta delta [ret]. intros [= <-]. split; reflexivity.
  - intros H. apply bind_Return_inv in H. destruct H as (t1 & [] & t2 & H1 & H2 & ->).
    apply IH in H2. apply bind_Return_inv in H1.
    destruct H1 as (t0 & b & t3 & Hm & Hp & ->).
    apply check_python_module_loads in Hm. destruct Hm as [-> Hb].
    cbn [filter]. rewrite Hb.
    destruct b; injection Hp as <-;
      rewrite !stdout_app, !count_prefixed_app; cbn [stdout flat_map app length];
      rewrite !(count_prefixed_cons _ _ []); cbn -[filter];
      rewrite ?prefix_empty, !count_prefixed_nil; cbn -[filter]; lia.
Qed.

Lemma optional_loop_lines (w : World) (l : list (string * string * string)) :
  forall t,
    for_each l (fun '(package_name, import_name, description) =>
      installed <- check_python_module import_name ;;
      if installed : bool
      then print ("  [OK] " ++ package_name ++ " - " ++ description)
      else (print ("  [OPTIONAL] " ++ package_name ++ " - " ++ description) ;;
            print ("             Install with: pip install " ++ package_name))) w
    = (t, Return tt) ->
    count_prefixed "  [OK] " (stdout t)
    = length (filter (fun '(_, import_name, _) => loads w import_name) l)
    /\ count_prefixed "  [OK] " (stdout t) + count_prefixed "  [OPTIONAL] " (stdout t)
       = length l
    /\ count_prefixed "             Install with: pip install " (stdout t)
       = count_prefixed "  [OPTIONAL] " (stdout t).
Proof.
  induction l as [|[[package_name import_name] description] l IH]; intros t;
    cbn [for_each].
  - cbv beta delta [ret]. intros [= <-]. repeat split; reflexivity.
  - intros H. apply bind_Return_inv in H. destruct H as (t1 & [] & t2 & H1 & H2 & ->).
    apply IH in H2. apply bind_Return_inv in H1.
    destruct H1 as (t0 & b & t3 & Hm & Hp & ->).
    apply check_python_module_loads in Hm. destruct Hm as [-> Hb].
    cbn [filter]. rewrite Hb.
    destruct b; injection Hp as <-;
      rewrite !stdout_app, !count_prefixed_app; cbn [stdout flat_map app length];
      rewrite ?(count_prefixed_cons _ _ [_]), !(count_prefixed_cons _ _ []);
      cbn -[filter]; rewrite ?prefix_empty, !count_prefixed_nil; cbn -[filter]; lia.
Qed.

Lemma required_packages_check_returns (w : World) :
  forallb (fun '(_, import_name) => import_contained w import_name) required_packages
  = true ->
  returns required_packages_check w.
Proof.
  intros H. unfold required_packages_check.
  apply returns_seq. split; [apply returns_print|].
  apply returns_for_each, Forall_forall. rewrite forallb_forall in H.
  intros [package_name import_name] Hin.
  exact (proj2 (returns_required_body w (package_name, import_name)) (H _ Hin)).
Qed.

Lemma optional_packages_check_returns (w : World) :
  forallb (fun '(_, import_name, _) => import_contained w import_name) optional_packages
  = true ->
  returns optional_packages_check w.
Proof.
  intros H. unfold optional_packages_check.
  apply returns_seq. split; [apply returns_print|].
  apply returns_for_each, Forall_forall. rewrite forallb_forall in H.
  intros [[package_name import_name] description] Hin.
  exact (proj2 (returns_optional_body w (package_name, import_name, description))
           (H _ Hin)).
Qed.

(** X9. When no exception leaves the import probes, each package section
    comes to its end with one status line per package of its table: an
    "[OK]" line for each package that loads, and for each that does not a
    "[MISSING]" line (required packages) or an "[OPTIONAL]" line followed by
    its install hint (optional packages). *)
Theorem package_lines_match_imports (w : World) :
  forallb (fun '(_, import_name) => import_contained w import_name) required_packages
  = true ->
  forallb (fun '(_, import_name, _) => import_contained w import_name) optional_packages
  = true ->
  exists t1 t2,
    required_packages_check w = (t1, Return tt)
    /\ optional_packages_check w = (t2, Return tt)
    /\ count_prefixed "  [OK] " (stdout t1)
       = length (filter (fun '(_, import_name) => loads w import_name) required_packages)
    /\ count_prefixed "  [OK] " (stdout t1) + count_prefixed "  [MISSING] " (stdout t1) = 2
    /\ count_prefixed "  [OK] " (stdout t2)
       = length (filter (fun '(_, import_name, _) => loads w import_name)
                   optional_packages)
    /\ count_prefixed "  [OK] " (stdout t2) + count_prefixed "  [OPTIONAL] " (stdout t2) = 2
    /\ count_prefixed "             Install with: pip install " (stdout t2)
       = count_prefixed "  [OPTIONAL] " (stdout t2).
Proof.
  intros Hreq Hopt.
  apply required_packages_check_returns in Hreq. destruct Hreq as [[] Hreq].
  apply optional_packages_check_returns in Hopt. destruct Hopt as [[] Hopt].
  destruct (required_packages_check w) as [t1 r1] eqn:E1. cbn [snd] in Hreq. subst r1.
  destruct (optional_packages_check w) as [t2 r2] eqn:E2. cbn [snd] in Hopt. subst r2.
  exists t1, t2. split; [reflexivity|]. split; [reflexivity|].
  unfold required_packages_check in E1. apply bind_Return_inv in E1.
  destruct E1 as (h1 & [] & b1 & H1 & L1 & ->). injection H1 as <-.
  unfold optional_packages_check in E2. apply bind_Return_inv in E2.
  destruct E2 as (h2 & [] & b2 & H2 & L2 & ->). injection H2 as <-.
  apply required_loop_lines in L1. apply optional_loop_lines in L2.
  change (length required_packages) with 2 in L1.
  change (length optional_packages) with 2 in L2.
  rewrite !stdout_app, !count_prefixed_app. cbn [stdout flat_map app].
  rewrite !(count_prefixed_cons _ _ []). cbn -[required_packages optional_packages].
  lia.
Qed.

Lemma package_lines_match_imports_witness :
  exists t1 t2,
    required_packages_check checkov_only_machine = (t1, Return tt)
    /\ optional_packages_check checkov_only_machine = (t2, Return tt)
    /\ count_prefixed "  [OK] " (stdout t1) = 1
    /\ count_prefixed "  [MISSING] " (stdout t1) = 1
    /\ count_prefixed "  [OK] " (stdout t2) = 2.
Proof.
  destruct (package_lines_match_imports checkov_only_machine eq_refl eq_refl)
    as (t1 & t2 & E1 & E2 & Hok1 & Hsum1 & Hok2 & _).
  exists t1, t2. split; [exact E1|]. split; [exact E2|].
  change (length (filter (fun '(_, import_name) => loads checkov_only_machine import_name)
                    required_packages)) with 1 in Hok1.
  change (length (filter (fun '(_, import_name, _) =>
                            loads checkov_only_machine import_name)
                    optional_packages)) with 2 in Hok2.
  split; [exact Hok1|]. split; [lia | exact Hok2].
Defined.

(** X10. The summary says one thing: the "No external tools installed."
    notice is printed exactly when the counter is 0, and the line with the
    count exactly when it is not. *)
Theorem summary_says_one_thing (tools_available : nat) (w : World) :
  (In (nl ++ "[INFO] No external tools installed.")
      (stdout (fst (summary tools_available w)))
   <-> tools_available = 0)
  /\ (In (nl ++ "[OK] " ++ str_of_nat tools_available
          ++ " external tool(s) available + built-in scanner")
         (stdout (fst (summary tools_available w)))
      <-> tools_available <> 0).
Proof.
  rewrite summary_run. cbn [fst]. rewrite stdout_prints.
  unfold summary_body, summary_header.
  destruct (Nat.eqb_spec tools_available 0) as [->|Hne].
  - split; split.
    + reflexivity.
    + intros _. do 3 right. left. reflexivity.
    + intros H. vm_compute in H.
      repeat (destruct H as [H|H]; [discriminate H|]). contradiction.
    + intros H. contradiction.
  - split; split.
    + intros H. cbn [app In] in H. unfold nl, bar in H. cbn [append str_mul] in H.
      repeat (destruct H as [H|H]; [discriminate H|]). contradiction.
    + intros H. contradiction.
    + intros _. exact Hne.
    + intros _. do 3 right. left. reflexivity.
Qed.

Lemma summary_says_one_thing_witness :
  In (nl ++ "[OK] 2 external tool(s) available + built-in scanner")
     (stdout (fst (summary 2 bare_machine)))
  /\ ~ In (nl ++ "[INFO] No external tools installed.")
          (stdout (fst (summary 2 bare_machine))).
Proof.
  split.
  - apply (proj2 (proj2 (summary_says_one_thing 2 bare_machine))). discriminate.
  - intros H. apply (proj1 (proj1 (summary_says_one_thing 2 bare_machine))) in H.
    discriminate H.
Defined.

(** X11. The environment section says one thing: the line that the
    insights are enabled is printed exactly when [OPENAI_API_KEY] has a
    non-empty value, and the "[NOT SET]" line exactly when it is unset or
    empty. *)
Theorem environment_check_says_one_thing (w : World) :
  (In "  [OK] OPENAI_API_KEY is set (AI insights enabled)"
      (stdout (fst (environment_check w)))
   <-> exists value, environ w "OPENAI_API_KEY" = Some value /\ value <> "")
  /\ (In "  [NOT SET] OPENAI_API_KEY - AI insights will use fallback mode"
         (stdout (fst (environment_check w)))
      <-> environ w "OPENAI_API_KEY" = None \/ environ w "OPENAI_API_KEY" = Some "").
Proof.
  rewrite environment_check_run. cbn [fst]. rewrite stdout_prints.
  unfold environment_body, truthy.
  destruct (environ w "OPENAI_API_KEY") as [value|].
  - destruct (String.eqb_spec value "") as [->|Hne]; cbn [negb]; split; split.
    + intros H. vm_compute in H.
      repeat (destruct H as [H|H]; [discriminate H|]). contradiction.
    + intros (value & [= <-] & H). contradiction.
    + intros _. right. reflexivity.
    + intros _. right. left. reflexivity.
    + intros _. exists value. auto.
    + intros _. right. left. reflexivity.
    + intros H. vm_compute in H.
      repeat (destruct H as [H|H]; [discriminate H|]). contradiction.
    + intros [H | [= H]]; [discriminate H | contradiction].
  - split; split.
    + intros H. vm_compute in H.
      repeat (destruct H as [H|H]; [discriminate H|]). contradiction.
    + intros (value & H & _). discriminate H.
    + intros _. left. reflexivity.
    + intros _. right. left. reflexivity.
Qed.

Lemma environment_check_says_one_thing_witness :
  In "  [OK] OPENAI_API_KEY is set (AI insights enabled)"
     (stdout (fst (environment_check full_machine)))
  /\ ~ In "  [NOT SET] OPENAI_API_KEY - AI insights will use fallback mode"
          (stdout (fst (environment_check full_machine))).
Proof.
  split.
  - apply (proj2 (proj1 (environment_check_says_one_thing full_machine))).
    exists "sk-test". split; [reflexivity | discriminate].
  - intros H. apply (proj1 (proj2 (environment_check_says_one_thing full_machine))) in H.
    destruct H as [H | H]; discriminate H.
Defined.
